(** * go-oauth2-server: token authority, storage backends and cache

    A shallow embedding of the storage layer (in-memory backend, PostgreSQL
    backend, in-memory and Redis caches) and of the access-token validation
    of the OAuth2 server, together with the properties its specification
    states about them.

    Conventions of the embedding.
    - A Go result, a pointer to a [T] with an [error], is a pair
      [option T * option error]; [None] in the first component is the nil
      pointer and [None] in the second is the nil error.  A method that updates its
      receiver returns the new receiver first.
    - An instant ([time.Time]) is an integer number of nanoseconds on the
      time line; a [time.Duration] is a signed 64-bit number of
      nanoseconds.  Every operation receives the reading [now] of the
      clock; an operation that reads the clock more than once
      ([time.Now], [gorm.NowFunc], [time.Until]) is taken to run within
      that one instant.
    - The reader/writer lock of the in-memory backend makes each of its
      operations atomic; they are modelled as functions on the store.
    - Metrics providers only observe; their calls are left out. *)

From Stdlib Require Import ZArith Ascii String Bool.
From stdpp Require Import base option gmap strings list fin_maps.

Local Open Scope string_scope.
Local Open Scope Z_scope.

(** ** Machine integers and time *)

Abbreviation Time := Z (only parsing).
Abbreviation Duration := Z (only parsing).

Definition int64_min : Z := - 2 ^ 63.
Definition int64_max : Z := 2 ^ 63 - 1.

(** Two's complement wrap-around of Go's [int64] arithmetic. *)
Definition wrap64 (z : Z) : Z := (z + 2 ^ 63) mod 2 ^ 64 - 2 ^ 63.

(** Saturation to the [int64] range, as done by [Time.Sub]. *)
Definition sat64 (z : Z) : Z := Z.max int64_min (Z.min int64_max z).

Module time.

Definition Nanosecond : Duration := 1.
Definition Second : Duration := 1000000000.
Definition Minute : Duration := 60 * Second.
Definition Hour : Duration := 60 * Minute.

(** [t.After(u)] and [t.Before(u)] are strict. *)
Definition After (t u : Time) : bool := u <? t.
Definition Before (t u : Time) : bool := t <? u.

Definition Add (t : Time) (d : Duration) : Time := t + d.

(** [t.Sub(u)] saturates at the largest and smallest [Duration]. *)
Definition Sub (t u : Time) : Duration := sat64 (t - u).

(** [time.Until(t)] is [t.Sub(time.Now())]. *)
Definition Until (now t : Time) : Duration := Sub t now.

(** [time.Duration(n) * time.Second] for an [int] number of seconds. *)
Definition Seconds (n : Z) : Duration := wrap64 (n * Second).

(** The zero value of [time.Time] (January 1, year 1) lies before the
    epoch; its exact place is irrelevant here. *)
Definition zero : Time := -62135596800 * Second.

End time.

(** ** Errors *)

Inductive error : Type :=
  (* package storage, common storage errors *)
  | ErrClientNotFound
  | ErrUserNotFound
  | ErrTokenNotFound
  | ErrTokenExpired
  | ErrCodeNotFound
  | ErrCodeExpired
  | ErrScopeNotFound
  | ErrRoleNotFound
  | ErrInvalidCredentials
  (* package oauth *)
  | ErrAccessTokenNotFound
  | ErrAccessTokenExpired
  (* github.com/go-redis/redis: the reply for a missing key *)
  | RedisNil
  (* github.com/jinzhu/gorm: no row matches the query *)
  | ErrRecordNotFound
  (* an error raised by a database or cache driver *)
  | DriverError (msg : string)
  (* fmt.Errorf without and with a wrapped cause (%w) *)
  | Errorf (msg : string)
  | Wrapf (msg : string) (cause : error).

#[global] Instance error_eq_dec : EqDecision error.
Proof. solve_decision. Defined.



(** A driver (database connection, Redis client) may fail.  Its failures
    are scripted: each command takes the head of the script, [Some e]
    makes the command fail with [e] and leaves the data untouched, [None]
    or an exhausted script lets it run. *)
Definition FaultScript : Type := list (option error).

Definition next_fault (fs : FaultScript) : option error * FaultScript :=
  match fs with
  | [] => (None, [])
  | f :: fs' => (f, fs')
  end.

(** ** Entity model (package models)

    Modelled from the spec: the package [models] is not among the sources.
    The records carry the attributes of section 3 of the specification
    under the field names the sources use ([Key], [Username], [Password],
    [Token], [Code], [ClientID], [UserID], [ExpiresAt], [CreatedAt]). *)

Module sql.
Record NullString : Type := mkNullString { String_ : string; Valid : bool }.
Definition null : NullString := mkNullString "" false.
Definition some (s : string) : NullString := mkNullString s true.
End sql.

#[global] Instance NullString_eq_dec : EqDecision sql.NullString.
Proof. solve_decision. Defined.

Module OauthClient.
Record t : Type := mk
  { Key : string; Secret : string; RedirectURI : sql.NullString;
    CreatedAt : Time }.
Definition zero : t := mk "" "" sql.null time.zero.
Definition with_CreatedAt (c : t) (at_ : Time) : t :=
  mk (Key c) (Secret c) (RedirectURI c) at_.
End OauthClient.

Module OauthUser.
Record t : Type := mk
  { ID : string; Username : string; Password : sql.NullString;
    CreatedAt : Time }.
Definition zero : t := mk "" "" sql.null time.zero.
Definition with_CreatedAt (u : t) (at_ : Time) : t :=
  mk (ID u) (Username u) (Password u) at_.
End OauthUser.

Module OauthScope.
Record t : Type := mk { Scope : string; IsDefault : bool }.
End OauthScope.

Module OauthAccessToken.
Record t : Type := mk
  { Token : string;
    ClientID : sql.NullString; UserID : sql.NullString;
    Client : option OauthClient.t; User : option OauthUser.t;
    Scope : string; ExpiresAt : Time; CreatedAt : Time }.
Definition zero : t :=
  mk "" sql.null sql.null None None "" time.zero time.zero.
Definition with_CreatedAt (a : t) (at_ : Time) : t :=
  mk (Token a) (ClientID a) (UserID a) (Client a) (User a) (Scope a)
     (ExpiresAt a) at_.
End OauthAccessToken.

Module OauthRefreshToken.
Record t : Type := mk
  { Token : string;
    ClientID : sql.NullString; UserID : sql.NullString;
    Scope : string; ExpiresAt : Time; CreatedAt : Time }.
Definition with_CreatedAt (r : t) (at_ : Time) : t :=
  mk (Token r) (ClientID r) (UserID r) (Scope r) (ExpiresAt r) at_.
Definition with_ExpiresAt (r : t) (at_ : Time) : t :=
  mk (Token r) (ClientID r) (UserID r) (Scope r) at_ (CreatedAt r).
End OauthRefreshToken.

Module OauthAuthorizationCode.
Record t : Type := mk
  { Code : string;
    ClientID : sql.NullString; UserID : sql.NullString;
    RedirectURI : sql.NullString;
    Scope : string; ExpiresAt : Time; CreatedAt : Time }.
Definition with_CreatedAt (c : t) (at_ : Time) : t :=
  mk (Code c) (ClientID c) (UserID c) (RedirectURI c) (Scope c)
     (ExpiresAt c) at_.
End OauthAuthorizationCode.

#[global] Instance OauthClient_eq_dec : EqDecision OauthClient.t.
Proof. solve_decision. Defined.
#[global] Instance OauthUser_eq_dec : EqDecision OauthUser.t.
Proof. solve_decision. Defined.
#[global] Instance OauthScope_eq_dec : EqDecision OauthScope.t.
Proof. solve_decision. Defined.
#[global] Instance OauthAccessToken_eq_dec : EqDecision OauthAccessToken.t.
Proof. solve_decision. Defined.
#[global] Instance OauthRefreshToken_eq_dec : EqDecision OauthRefreshToken.t.
Proof. solve_decision. Defined.
#[global] Instance OauthAuthorizationCode_eq_dec :
  EqDecision OauthAuthorizationCode.t.
Proof. solve_decision. Defined.

(** ** golang.org/x/crypto/bcrypt

    The hash comparison is an external library; it is a parameter of the
    development.  [CompareHashAndPassword hash password] is [None] (nil)
    exactly when the password matches the hash. *)

Class Bcrypt : Type :=
  CompareHashAndPassword : string -> string -> option error.

(** ** The in-memory backend (storage/memory.go) *)

Module MemoryStorage.

Record t : Type := mk
  { clients : gmap string OauthClient.t;
    users : gmap string OauthUser.t;
    usersByID : gmap string OauthUser.t;
    accessTokens : gmap string OauthAccessToken.t;
    refreshTokens : gmap string OauthRefreshToken.t;
    authCodes : gmap string OauthAuthorizationCode.t;
    scopes : gmap string OauthScope.t }.

Definition NewMemoryStorage : t := mk ∅ ∅ ∅ ∅ ∅ ∅ ∅.

Definition set_clients (m : t) (x : gmap string OauthClient.t) : t :=
  mk x (users m) (usersByID m) (accessTokens m) (refreshTokens m)
     (authCodes m) (scopes m).
Definition set_users (m : t) (x y : gmap string OauthUser.t) : t :=
  mk (clients m) x y (accessTokens m) (refreshTokens m)
     (authCodes m) (scopes m).
Definition set_accessTokens (m : t) (x : gmap string OauthAccessToken.t) : t :=
  mk (clients m) (users m) (usersByID m) x (refreshTokens m)
     (authCodes m) (scopes m).
Definition set_refreshTokens (m : t) (x : gmap string OauthRefreshToken.t) : t :=
  mk (clients m) (users m) (usersByID m) (accessTokens m) x
     (authCodes m) (scopes m).
Definition set_authCodes (m : t) (x : gmap string OauthAuthorizationCode.t) : t :=
  mk (clients m) (users m) (usersByID m) (accessTokens m) (refreshTokens m)
     x (scopes m).

(* Client operations *)

Definition GetClient (m : t) (clientID : string)
  : option OauthClient.t * option error :=
  match clients m !! clientID with
  | Some client => (Some client, None)
  | None => (None, Some ErrClientNotFound)
  end.

Definition CreateClient (now : Time) (m : t) (client : OauthClient.t)
  : t * option error :=
  let client := OauthClient.with_CreatedAt client now in
  (set_clients m (<[OauthClient.Key client := client]> (clients m)), None).

Definition UpdateClient (m : t) (client : OauthClient.t) : t * option error :=
  match clients m !! OauthClient.Key client with
  | None => (m, Some ErrClientNotFound)
  | Some _ =>
      (set_clients m (<[OauthClient.Key client := client]> (clients m)), None)
  end.

Definition DeleteClient (m : t) (clientID : string) : t * option error :=
  (set_clients m (delete clientID (clients m)), None).

(* User operations *)

Definition GetUser (m : t) (username : string)
  : option OauthUser.t * option error :=
  match users m !! username with
  | Some user => (Some user, None)
  | None => (None, Some ErrUserNotFound)
  end.

Definition GetUserByID (m : t) (userID : string)
  : option OauthUser.t * option error :=
  match usersByID m !! userID with
  | Some user => (Some user, None)
  | None => (None, Some ErrUserNotFound)
  end.

Definition CreateUser (now : Time) (m : t) (user : OauthUser.t)
  : t * option error :=
  let user := OauthUser.with_CreatedAt user now in
  (set_users m (<[OauthUser.Username user := user]> (users m))
                (<[OauthUser.ID user := user]> (usersByID m)), None).

Definition AuthenticateUser `{Bcrypt} (m : t) (username password : string)
  : option OauthUser.t * option error :=
  match GetUser m username with
  | (_, Some err) => (None, Some err)
  | (None, None) => (None, None) (* GetUser never returns (nil, nil) *)
  | (Some user, None) =>
      (* Check password - handle sql.NullString *)
      if sql.Valid (OauthUser.Password user) then
        let hashedPassword := sql.String_ (OauthUser.Password user) in
        match CompareHashAndPassword hashedPassword password with
        | Some _ => (None, Some ErrInvalidCredentials)
        | None => (Some user, None)
        end
      else (None, Some ErrInvalidCredentials)
  end.

(* Token operations *)

Definition StoreAccessToken (now : Time) (m : t) (token : OauthAccessToken.t)
  : t * option error :=
  let token := OauthAccessToken.with_CreatedAt token now in
  (set_accessTokens m
     (<[OauthAccessToken.Token token := token]> (accessTokens m)), None).

Definition GetAccessToken (now : Time) (m : t) (tokenStr : string)
  : option OauthAccessToken.t * option error :=
  match accessTokens m !! tokenStr with
  | Some token =>
      if time.Before (OauthAccessToken.ExpiresAt token) now
      then (None, Some ErrTokenExpired)
      else (Some token, None)
  | None => (None, Some ErrTokenNotFound)
  end.

Definition DeleteAccessToken (m : t) (tokenStr : string) : t * option error :=
  (set_accessTokens m (delete tokenStr (accessTokens m)), None).

(** The two loops delete, while ranging over the map, every entry whose
    expiry is before [now]; the entries that stay are those that fail the
    test. *)
Definition CleanupExpiredTokens (now : Time) (m : t) : t * option error :=
  let m1 :=
    set_accessTokens m
      (filter (fun kv => time.Before (OauthAccessToken.ExpiresAt kv.2) now = false)
              (accessTokens m)) in
  let m2 :=
    set_refreshTokens m1
      (filter (fun kv => time.Before (OauthRefreshToken.ExpiresAt kv.2) now = false)
              (refreshTokens m1)) in
  (m2, None).

(* Refresh token operations *)

Definition StoreRefreshToken (now : Time) (m : t) (token : OauthRefreshToken.t)
  : t * option error :=
  let token := OauthRefreshToken.with_CreatedAt token now in
  (set_refreshTokens m
     (<[OauthRefreshToken.Token token := token]> (refreshTokens m)), None).

Definition GetRefreshToken (now : Time) (m : t) (tokenStr : string)
  : option OauthRefreshToken.t * option error :=
  match refreshTokens m !! tokenStr with
  | Some token =>
      if time.Before (OauthRefreshToken.ExpiresAt token) now
      then (None, Some ErrTokenExpired)
      else (Some token, None)
  | None => (None, Some ErrTokenNotFound)
  end.

Definition DeleteRefreshToken (m : t) (tokenStr : string) : t * option error :=
  (set_refreshTokens m (delete tokenStr (refreshTokens m)), None).

(* Authorization code operations *)

Definition StoreAuthorizationCode (now : Time) (m : t)
    (code : OauthAuthorizationCode.t) : t * option error :=
  let code := OauthAuthorizationCode.with_CreatedAt code now in
  (set_authCodes m
     (<[OauthAuthorizationCode.Code code := code]> (authCodes m)), None).

Definition GetAuthorizationCode (now : Time) (m : t) (codeStr : string)
  : option OauthAuthorizationCode.t * option error :=
  match authCodes m !! codeStr with
  | Some code =>
      if time.Before (OauthAuthorizationCode.ExpiresAt code) now
      then (None, Some ErrCodeExpired)
      else (Some code, None)
  | None => (None, Some ErrCodeNotFound)
  end.

Definition DeleteAuthorizationCode (m : t) (codeStr : string)
  : t * option error :=
  (set_authCodes m (delete codeStr (authCodes m)), None).

(* Scope operations *)


Definition GetDefaultScope (m : t) : string * option error :=
  ("read", None). (* Default scope for development *)

(* Batch operations *)

Fixpoint BatchGetTokens_loop (now : Time) (m : t) (tokens : list string)
  : list OauthAccessToken.t :=
  match tokens with
  | [] => []
  | token :: rest =>
      match GetAccessToken now m token with
      | (Some tk, None) => tk :: BatchGetTokens_loop now m rest
      | _ => BatchGetTokens_loop now m rest
      end
  end.

Definition BatchGetTokens (now : Time) (m : t) (tokens : list string)
  : list OauthAccessToken.t * option error :=
  (BatchGetTokens_loop now m tokens, None).

Fixpoint BatchDeleteTokens_loop (m : t) (tokens : list string) : t :=
  match tokens with
  | [] => m
  | token :: rest => BatchDeleteTokens_loop (DeleteAccessToken m token).1 rest
  end.

Definition BatchDeleteTokens (m : t) (tokens : list string) : t * option error :=
  (BatchDeleteTokens_loop m tokens, None).

Definition HealthCheck (m : t) : option error := None.

End MemoryStorage.

(** ** The cache port (storage.CacheProvider)

    A cached value is one of the entities the backends hand to the cache
    (Go's [interface{}]).  [Get] receives the destination the caller
    points to and returns what the destination holds afterwards.  Of the
    interface, the operations the backends below call are modelled. *)

Inductive CacheValue : Type :=
  | VClient (c : OauthClient.t)
  | VUser (u : OauthUser.t)
  | VAccessToken (a : OauthAccessToken.t).

#[global] Instance CacheValue_eq_dec : EqDecision CacheValue.
Proof. solve_decision. Defined.

Definition as_client (v : CacheValue) : OauthClient.t :=
  match v with VClient c => c | _ => OauthClient.zero end.
Definition as_user (v : CacheValue) : OauthUser.t :=
  match v with VUser u => u | _ => OauthUser.zero end.
Definition as_access_token (v : CacheValue) : OauthAccessToken.t :=
  match v with VAccessToken a => a | _ => OauthAccessToken.zero end.

Class CacheProvider (C : Type) : Type :=
  { cache_Set : Time -> C -> string -> CacheValue -> Duration -> C * option error;
    cache_Get : Time -> C -> string -> CacheValue -> C * CacheValue * option error;
    cache_Delete : C -> string -> C * option error }.

(** *** The in-memory cache (storage/factory.go) *)

Module MemoryCache.

Record CacheItem : Type := mkItem { Value : CacheValue; ExpiresAt : Time }.

Record t : Type := mk { data : gmap string CacheItem }.

Definition NewMemoryCache : t := mk ∅.

Definition Set_ (now : Time) (m : t) (key : string) (value : CacheValue)
    (ttl : Duration) : t * option error :=
  (mk (<[key := mkItem value (time.Add now ttl)]> (data m)), None).

Definition Get (now : Time) (m : t) (key : string) (dest : CacheValue)
  : CacheValue * option error :=
  match data m !! key with
  | None => (dest, Some (Errorf "key not found or expired"))
  | Some item =>
      if time.After now (ExpiresAt item)
      then (dest, Some (Errorf "key not found or expired"))
      else
        (* In a real implementation, you'd use reflection or type
           assertion to copy to dest *)
        (dest, None)
  end.

Definition Delete (m : t) (key : string) : t * option error :=
  (mk (delete key (data m)), None).

(** The loop of [SetMulti] ranges over a Go map, in an order the language
    leaves open; [items] lists the entries in the order the loop meets
    them. *)
Fixpoint SetMulti_range (now : Time) (m : t)
    (items : list (string * CacheValue)) (ttl : Duration) : t :=
  match items with
  | [] => m
  | (key, value) :: rest =>
      SetMulti_range now (Set_ now m key value ttl).1 rest ttl
  end.

Definition SetMulti (now : Time) (m : t) (items : gmap string CacheValue)
    (ttl : Duration) : t * option error :=
  (SetMulti_range now m (map_to_list items) ttl, None).

Fixpoint GetMulti_range (now : Time) (m : t) (keys : list string)
    (result : gmap string CacheValue) : gmap string CacheValue :=
  match keys with
  | [] => result
  | key :: rest =>
      match data m !! key with
      | Some item =>
          if negb (time.After now (ExpiresAt item))
          then GetMulti_range now m rest (<[key := Value item]> result)
          else GetMulti_range now m rest result
      | None => GetMulti_range now m rest result
      end
  end.

Definition GetMulti (now : Time) (m : t) (keys : list string)
  : gmap string CacheValue * option error :=
  (GetMulti_range now m keys ∅, None).

Fixpoint DeleteMulti_range (m : t) (keys : list string) : t :=
  match keys with
  | [] => m
  | key :: rest => DeleteMulti_range (mk (delete key (data m))) rest
  end.

Definition DeleteMulti (m : t) (keys : list string) : t * option error :=
  (DeleteMulti_range m keys, None).

Definition FlushAll (m : t) : t * option error := (mk ∅, None).

(* CacheStats provides cache performance metrics; HitRatio, a float64
   that Stats leaves at its zero value, is left out *)
Record CacheStats : Type := mkStats
  { Hits : Z; Misses : Z; Keys : Z; Memory : Z }.

Definition Stats (m : t) : option CacheStats * option error :=
  (Some (mkStats 0 (* Not tracked in memory implementation *) 0
           (Z.of_nat (size (data m))) 0), None).

End MemoryCache.

#[global] Instance MemoryCache_provider : CacheProvider MemoryCache.t :=
  {| cache_Set := MemoryCache.Set_;
     cache_Get := fun now m key dest =>
       let '(dest', err) := MemoryCache.Get now m key dest in (m, dest', err);
     cache_Delete := MemoryCache.Delete |}.

(** *** encoding/json and the Redis client

    Both are external.  A JSON document is identified with the entity it
    encodes, so that decoding what was encoded gives the entity back.
    Decoding into a destination of another entity reports no error and
    is not modelled beyond leaving the destination as it is.

    The Redis client is a key-value store with optional expiry whose
    commands may fail as scripted.  [Set] follows go-redis: a positive
    expiration sets the expiry, [KeepTTL] (-1) keeps the one the key has,
    anything else stores the key without expiry. *)

Module json.

Inductive Document : Type := Doc (v : CacheValue).

Definition Marshal (v : CacheValue) : Document + error := inl (Doc v).

Definition Unmarshal (d : Document) (dest : CacheValue) : CacheValue + error :=
  match d, dest with
  | Doc (VClient c), VClient _ => inl (VClient c)
  | Doc (VUser u), VUser _ => inl (VUser u)
  | Doc (VAccessToken a), VAccessToken _ => inl (VAccessToken a)
  | _, _ => inl dest
  end.

End json.

Module redis.

Record Entry : Type := mkEntry { payload : json.Document; expiry : option Time }.

Record UniversalClient : Type := mk
  { store : gmap string Entry; faults : FaultScript }.

Definition KeepTTL : Duration := -1.

Definition live (now : Time) (e : Entry) : bool :=
  match expiry e with
  | None => true
  | Some t => now <? t
  end.

Definition Set_ (now : Time) (cl : UniversalClient) (key : string)
    (value : json.Document) (expiration : Duration)
  : UniversalClient * option error :=
  match next_fault (faults cl) with
  | (Some e, fs) => (mk (store cl) fs, Some e)
  | (None, fs) =>
      let exp :=
        if 0 <? expiration then Some (time.Add now expiration)
        else if expiration =? KeepTTL then
          match store cl !! key with
          | Some old => if live now old then expiry old else None
          | None => None
          end
        else None in
      (mk (<[key := mkEntry value exp]> (store cl)) fs, None)
  end.

Definition Get (now : Time) (cl : UniversalClient) (key : string)
  : UniversalClient * (json.Document + error) :=
  match next_fault (faults cl) with
  | (Some e, fs) => (mk (store cl) fs, inr e)
  | (None, fs) =>
      match store cl !! key with
      | Some e => if live now e then (mk (store cl) fs, inl (payload e))
                  else (mk (store cl) fs, inr RedisNil)
      | None => (mk (store cl) fs, inr RedisNil)
      end
  end.

Definition Del (cl : UniversalClient) (key : string)
  : UniversalClient * option error :=
  match next_fault (faults cl) with
  | (Some e, fs) => (mk (store cl) fs, Some e)
  | (None, fs) => (mk (delete key (store cl)) fs, None)
  end.

End redis.

(** *** The Redis cache (storage/redis/redis.go) *)

Module RedisCache.

Record t : Type := mk { client : redis.UniversalClient; prefix : string }.

(* getFullKey returns the full cache key with prefix *)
Definition getFullKey (r : t) (key : string) : string :=
  if decide (prefix r = "") then key else prefix r ++ ":" ++ key.

Definition Set_ (now : Time) (r : t) (key : string) (value : CacheValue)
    (ttl : Duration) : t * option error :=
  let fullKey := getFullKey r key in
  (* Serialize the value *)
  match json.Marshal value with
  | inr err => (r, Some (Wrapf "failed to marshal value" err))
  | inl data =>
      (* Store in Redis *)
      match redis.Set_ now (client r) fullKey data ttl with
      | (cl, Some err) =>
          (mk cl (prefix r), Some (Wrapf "failed to set cache value" err))
      | (cl, None) => (mk cl (prefix r), None)
      end
  end.

Definition Get (now : Time) (r : t) (key : string) (dest : CacheValue)
  : t * CacheValue * option error :=
  let fullKey := getFullKey r key in
  (* Get from Redis *)
  match redis.Get now (client r) fullKey with
  | (cl, inr err) =>
      if decide (err = RedisNil)
      then (mk cl (prefix r), dest, Some (Errorf "cache miss"))
      else (mk cl (prefix r), dest, Some (Wrapf "failed to get cache value" err))
  | (cl, inl data) =>
      (* Deserialize the value *)
      match json.Unmarshal data dest with
      | inr err =>
          (mk cl (prefix r), dest, Some (Wrapf "failed to unmarshal value" err))
      | inl v => (mk cl (prefix r), v, None)
      end
  end.

Definition Delete (r : t) (key : string) : t * option error :=
  let fullKey := getFullKey r key in
  match redis.Del (client r) fullKey with
  | (cl, Some err) =>
      (mk cl (prefix r), Some (Wrapf "failed to delete cache value" err))
  | (cl, None) => (mk cl (prefix r), None)
  end.

End RedisCache.

#[global] Instance RedisCache_provider : CacheProvider RedisCache.t :=
  {| cache_Set := RedisCache.Set_;
     cache_Get := RedisCache.Get;
     cache_Delete := RedisCache.Delete |}.

(** *** Recording the calls a backend makes

    To speak about the arguments a backend passes to its cache, any
    provider can be wrapped so that it keeps a journal of the calls it
    receives, oldest first, and otherwise behaves as before. *)

Inductive CacheCall : Type :=
  | CallSet (key : string) (value : CacheValue) (ttl : Duration)
  | CallGet (key : string)
  | CallDelete (key : string).

Record Recorded (C : Type) : Type := mkRecorded
  { inner : C; journal : list CacheCall }.
Arguments mkRecorded {C}.
Arguments inner {C}.
Arguments journal {C}.

#[global] Instance Recorded_provider {C} `{CacheProvider C}
  : CacheProvider (Recorded C) :=
  {| cache_Set := fun now r key value ttl =>
       let '(c, err) := cache_Set now (inner r) key value ttl in
       (mkRecorded c (journal r ++ [CallSet key value ttl]), err);
     cache_Get := fun now r key dest =>
       let '(c, dest', err) := cache_Get now (inner r) key dest in
       (mkRecorded c (journal r ++ [CallGet key]), dest', err);
     cache_Delete := fun r key =>
       let '(c, err) := cache_Delete (inner r) key in
       (mkRecorded c (journal r ++ [CallDelete key]), err) |}.

(** ** The relational store (github.com/jinzhu/gorm)

    Modelled from the spec: the schema is declared in the package
    [models], which is not among the sources.  Every table is a finite
    map from the unique identifier of its entity (section 3: client
    identifier, username, token string, code string) to the row, so
    that the key of a row is the value of its identifier column; the
    associations a query preloads are carried by the row.  A command
    fails when the connection does, as scripted, and then changes no
    row. *)

Module gorm.

Record DB : Type := mk
  { oauth_clients : gmap string OauthClient.t;
    oauth_users : gmap string OauthUser.t;
    oauth_access_tokens : gmap string OauthAccessToken.t;
    oauth_refresh_tokens : gmap string OauthRefreshToken.t;
    oauth_authorization_codes : gmap string OauthAuthorizationCode.t;
    faults : FaultScript }.

Definition set_faults (db : DB) (fs : FaultScript) : DB :=
  mk (oauth_clients db) (oauth_users db) (oauth_access_tokens db)
     (oauth_refresh_tokens db) (oauth_authorization_codes db) fs.

(** A table of the database: how to read and replace its rows. *)
Record Table (V : Type) : Type := mkTable
  { rows : DB -> gmap string V; set_rows : DB -> gmap string V -> DB }.
Arguments rows {V}.
Arguments set_rows {V}.

Definition Clients : Table OauthClient.t :=
  mkTable _ oauth_clients
    (fun db x => mk x (oauth_users db) (oauth_access_tokens db)
                   (oauth_refresh_tokens db) (oauth_authorization_codes db)
                   (faults db)).
Definition Users : Table OauthUser.t :=
  mkTable _ oauth_users
    (fun db x => mk (oauth_clients db) x (oauth_access_tokens db)
                   (oauth_refresh_tokens db) (oauth_authorization_codes db)
                   (faults db)).
Definition AccessTokens : Table OauthAccessToken.t :=
  mkTable _ oauth_access_tokens
    (fun db x => mk (oauth_clients db) (oauth_users db) x
                   (oauth_refresh_tokens db) (oauth_authorization_codes db)
                   (faults db)).
Definition RefreshTokens : Table OauthRefreshToken.t :=
  mkTable _ oauth_refresh_tokens
    (fun db x => mk (oauth_clients db) (oauth_users db) (oauth_access_tokens db)
                   x (oauth_authorization_codes db) (faults db)).
Definition AuthorizationCodes : Table OauthAuthorizationCode.t :=
  mkTable _ oauth_authorization_codes
    (fun db x => mk (oauth_clients db) (oauth_users db) (oauth_access_tokens db)
                   (oauth_refresh_tokens db) x (faults db)).

(** The empty database on a connection that does not fail. *)
Definition empty : DB := mk ∅ ∅ ∅ ∅ ∅ [].

(** Sending a command: the connection answers or fails. *)
Definition send (db : DB) : DB * option error :=
  let '(fault, fs) := next_fault (faults db) in (set_faults db fs, fault).

Definition IsRecordNotFoundError (err : error) : bool :=
  bool_decide (err = ErrRecordNotFound).

(** [Where(<identifier> = ?, key).First(&row)] *)
Definition First {V} (T : Table V) (db : DB) (key : string) : DB * (V + error) :=
  match send db with
  | (db, Some e) => (db, inr e)
  | (db, None) =>
      match rows T db !! key with
      | Some row => (db, inl row)
      | None => (db, inr ErrRecordNotFound)
      end
  end.

(** [Where(<condition>).First(&row)] on a column that is not the key of
    the map. *)
Definition FirstWhere {V} (T : Table V) (db : DB) (cond : V -> bool)
  : DB * (V + error) :=
  match send db with
  | (db, Some e) => (db, inr e)
  | (db, None) =>
      match List.find (fun kv => cond kv.2) (map_to_list (rows T db)) with
      | Some kv => (db, inl kv.2)
      | None => (db, inr ErrRecordNotFound)
      end
  end.

(** [Create(&row)]: the identifier is unique. *)
Definition Create {V} (T : Table V) (db : DB) (key : string) (row : V)
  : DB * option error :=
  match send db with
  | (db, Some e) => (db, Some e)
  | (db, None) =>
      match rows T db !! key with
      | Some _ =>
          (db, Some (DriverError "duplicate key value violates unique constraint"))
      | None => (set_rows T db (<[key := row]> (rows T db)), None)
      end
  end.

(** [Save(&row)]: update the row, insert it when there is none. *)
Definition Save {V} (T : Table V) (db : DB) (key : string) (row : V)
  : DB * option error :=
  match send db with
  | (db, Some e) => (db, Some e)
  | (db, None) => (set_rows T db (<[key := row]> (rows T db)), None)
  end.

(** [Where(<identifier> = ?, key).Delete(&Model{})] *)
Definition Delete {V} (T : Table V) (db : DB) (key : string)
  : DB * option error :=
  match send db with
  | (db, Some e) => (db, Some e)
  | (db, None) => (set_rows T db (delete key (rows T db)), None)
  end.

(** [Where(<condition>).Delete(&Model{})] *)
Definition DeleteWhere {V} (T : Table V) (db : DB) (cond : V -> bool)
  : DB * option error :=
  match send db with
  | (db, Some e) => (db, Some e)
  | (db, None) =>
      (set_rows T db (filter (fun kv => cond kv.2 = false) (rows T db)), None)
  end.

(** [Model(&Model{}).Where(<condition>).UpdateColumn(column, value)] *)
Definition UpdateColumn {V} (T : Table V) (db : DB) (cond : V -> bool)
    (assign : V -> V) : DB * option error :=
  match send db with
  | (db, Some e) => (db, Some e)
  | (db, None) =>
      (set_rows T db ((fun row => if cond row then assign row else row)
                        <$> rows T db), None)
  end.

(** The SQL conditions the sources write. *)
Definition column_eq (col : sql.NullString) (v : string) : bool :=
  sql.Valid col && bool_decide (sql.String_ col = v).
Definition column_is_null (col : sql.NullString) : bool := negb (sql.Valid col).

End gorm.

(** ** The PostgreSQL backend (storage/postgres/postgres.go) *)

(** What running a function gives: it returns its error result, or a
    deferred call panics. *)
Inductive Outcome : Type :=
  | Returned (err : option error)
  | Panicked.

Module PostgreSQLStorage.
Section with_cache.
Context {C : Type} `{CacheProvider C}.

(** [cache] is [None] when the backend runs without a cache (nil). *)
Record t : Type := mk { db : gorm.DB; cache : option C }.

(** [if s.cache != nil { s.cache.Set(...) }], the error of [Set] dropped *)
Definition cache_set_if_any (now : Time) (cache : option C) (key : string)
    (value : CacheValue) (ttl : Duration) : option C :=
  match cache with
  | Some c => Some (cache_Set now c key value ttl).1
  | None => None
  end.

(** [if s.cache != nil { s.cache.Delete(...) }], the error of [Delete]
    dropped *)
Definition cache_delete_if_any (cache : option C) (key : string) : option C :=
  match cache with
  | Some c => Some (cache_Delete c key).1
  | None => None
  end.

(** [if s.cache != nil { if err := s.cache.Get(..., &dest); err == nil
    { return &dest, nil } }]: the cache afterwards and, on a hit, what
    the destination holds. *)
Definition cache_try_get (now : Time) (cache : option C) (key : string)
    (dest : CacheValue) : option C * option CacheValue :=
  match cache with
  | Some c =>
      match cache_Get now c key dest with
      | (c, dest', None) => (Some c, Some dest')
      | (c, _, Some _) => (Some c, None)
      end
  | None => (None, None)
  end.

(* GetClient retrieves a client with caching support *)
Definition GetClient (now : Time) (s : t) (clientID : string)
  : t * option OauthClient.t * option error :=
  (* Try cache first *)
  match cache_try_get now (cache s) ("client:" ++ clientID)
          (VClient OauthClient.zero) with
  | (cache1, Some client) => (mk (db s) cache1, Some (as_client client), None)
  | (cache1, None) =>
      (* Query database *)
      match gorm.First gorm.Clients (db s) clientID with
      | (db1, inr err) =>
          if gorm.IsRecordNotFoundError err then (mk db1 cache1, None, None)
          else (mk db1 cache1, None, Some (Wrapf "failed to get client" err))
      | (db1, inl client) =>
          (* Cache the result *)
          let cache2 :=
            cache_set_if_any now cache1 ("client:" ++ clientID)
              (VClient client) (5 * time.Minute) in
          (mk db1 cache2, Some client, None)
      end
  end.

(* CreateClient creates a new OAuth client *)
Definition CreateClient (s : t) (client : OauthClient.t) : t * option error :=
  match gorm.Create gorm.Clients (db s) (OauthClient.Key client) client with
  | (db1, Some err) =>
      (mk db1 (cache s), Some (Wrapf "failed to create client" err))
  | (db1, None) =>
      (* Invalidate cache *)
      (mk db1 (cache_delete_if_any (cache s)
                 ("client:" ++ OauthClient.Key client)), None)
  end.

(* UpdateClient updates an existing OAuth client *)
Definition UpdateClient (s : t) (client : OauthClient.t) : t * option error :=
  match gorm.Save gorm.Clients (db s) (OauthClient.Key client) client with
  | (db1, Some err) =>
      (mk db1 (cache s), Some (Wrapf "failed to update client" err))
  | (db1, None) =>
      (* Invalidate cache *)
      (mk db1 (cache_delete_if_any (cache s)
                 ("client:" ++ OauthClient.Key client)), None)
  end.

(* DeleteClient deletes an OAuth client *)
Definition DeleteClient (s : t) (clientID : string) : t * option error :=
  match gorm.Delete gorm.Clients (db s) clientID with
  | (db1, Some err) =>
      (mk db1 (cache s), Some (Wrapf "failed to delete client" err))
  | (db1, None) =>
      (* Invalidate cache *)
      (mk db1 (cache_delete_if_any (cache s) ("client:" ++ clientID)), None)
  end.

(* GetUser retrieves a user with caching support *)
Definition GetUser (now : Time) (s : t) (username : string)
  : t * option OauthUser.t * option error :=
  (* Try cache first *)
  match cache_try_get now (cache s) ("user:" ++ username)
          (VUser OauthUser.zero) with
  | (cache1, Some user) => (mk (db s) cache1, Some (as_user user), None)
  | (cache1, None) =>
      (* Query database *)
      match gorm.First gorm.Users (db s) username with
      | (db1, inr err) =>
          if gorm.IsRecordNotFoundError err then (mk db1 cache1, None, None)
          else (mk db1 cache1, None, Some (Wrapf "failed to get user" err))
      | (db1, inl user) =>
          (* Cache the result *)
          let cache2 :=
            cache_set_if_any now cache1 ("user:" ++ username)
              (VUser user) (5 * time.Minute) in
          (mk db1 cache2, Some user, None)
      end
  end.

(* GetUserByID retrieves a user by ID *)
Definition GetUserByID (s : t) (userID : string)
  : t * option OauthUser.t * option error :=
  match gorm.FirstWhere gorm.Users (db s)
          (fun u => bool_decide (OauthUser.ID u = userID)) with
  | (db1, inr err) =>
      if gorm.IsRecordNotFoundError err then (mk db1 (cache s), None, None)
      else (mk db1 (cache s), None, Some (Wrapf "failed to get user by ID" err))
  | (db1, inl user) => (mk db1 (cache s), Some user, None)
  end.

(* CreateUser creates a new user *)
Definition CreateUser (s : t) (user : OauthUser.t) : t * option error :=
  match gorm.Create gorm.Users (db s) (OauthUser.Username user) user with
  | (db1, Some err) =>
      (mk db1 (cache s), Some (Wrapf "failed to create user" err))
  | (db1, None) => (mk db1 (cache s), None)
  end.

(* AuthenticateUser authenticates a user with username and password *)
Definition AuthenticateUser (now : Time) (s : t) (username password : string)
  : t * option OauthUser.t * option error :=
  match GetUser now s username with
  | (s1, _, Some err) => (s1, None, Some err)
  | (s1, None, None) => (s1, None, None) (* User not found *)
  | (s1, Some user, None) =>
      (* TODO: Implement password verification *)
      (* This would typically involve bcrypt.CompareHashAndPassword *)
      (s1, Some user, None)
  end.

(** The deferred call of [StoreAccessToken] reads [token.Client.Key]; it
    panics when the token carries no client. *)
Definition deferred_IncrementActiveTokens (token : OauthAccessToken.t)
    (err : option error) : Outcome :=
  match OauthAccessToken.Client token with
  | Some _ => Returned err
  | None => Panicked
  end.

(* StoreAccessToken stores an access token with optimized indexing *)
Definition StoreAccessToken (now : Time) (s : t) (token : OauthAccessToken.t)
  : t * Outcome :=
  match gorm.Create gorm.AccessTokens (db s)
          (OauthAccessToken.Token token) token with
  | (db1, Some err) =>
      (mk db1 (cache s),
       deferred_IncrementActiveTokens token
         (Some (Wrapf "failed to store access token" err)))
  | (db1, None) =>
      (* Cache the token for fast lookup *)
      let cache1 :=
        cache_set_if_any now (cache s)
          ("access_token:" ++ OauthAccessToken.Token token)
          (VAccessToken token)
          (time.Until now (OauthAccessToken.ExpiresAt token)) in
      (mk db1 cache1, deferred_IncrementActiveTokens token None)
  end.

(* GetAccessToken retrieves an access token with caching *)
Definition GetAccessToken (now : Time) (s : t) (tokenStr : string)
  : t * option OauthAccessToken.t * option error :=
  (* Try cache first *)
  match cache_try_get now (cache s) ("access_token:" ++ tokenStr)
          (VAccessToken OauthAccessToken.zero) with
  | (cache1, Some token) =>
      (mk (db s) cache1, Some (as_access_token token), None)
  | (cache1, None) =>
      (* Query database with preloading for performance *)
      match gorm.First gorm.AccessTokens (db s) tokenStr with
      | (db1, inr err) =>
          if gorm.IsRecordNotFoundError err then (mk db1 cache1, None, None)
          else (mk db1 cache1, None,
                Some (Wrapf "failed to get access token" err))
      | (db1, inl token) =>
          (* Cache the result if not expired *)
          let cache2 :=
            if time.After (OauthAccessToken.ExpiresAt token) now
            then cache_set_if_any now cache1 ("access_token:" ++ tokenStr)
                   (VAccessToken token)
                   (time.Until now (OauthAccessToken.ExpiresAt token))
            else cache1 in
          (mk db1 cache2, Some token, None)
      end
  end.

(* DeleteAccessToken deletes an access token *)
Definition DeleteAccessToken (s : t) (tokenStr : string) : t * option error :=
  match gorm.Delete gorm.AccessTokens (db s) tokenStr with
  | (db1, Some err) =>
      (mk db1 (cache s), Some (Wrapf "failed to delete access token" err))
  | (db1, None) =>
      (* Remove from cache *)
      (mk db1 (cache_delete_if_any (cache s) ("access_token:" ++ tokenStr)),
       None)
  end.

(* CleanupExpiredTokens removes expired tokens for database maintenance *)
Definition CleanupExpiredTokens (now : Time) (s : t) : t * option error :=
  (* Clean up access tokens *)
  match gorm.DeleteWhere gorm.AccessTokens (db s)
          (fun a => OauthAccessToken.ExpiresAt a <? now) with
  | (db1, Some err) =>
      (mk db1 (cache s),
       Some (Wrapf "failed to cleanup expired access tokens" err))
  | (db1, None) =>
      (* Clean up refresh tokens *)
      match gorm.DeleteWhere gorm.RefreshTokens db1
              (fun r => OauthRefreshToken.ExpiresAt r <? now) with
      | (db2, Some err) =>
          (mk db2 (cache s),
           Some (Wrapf "failed to cleanup expired refresh tokens" err))
      | (db2, None) =>
          (* Clean up authorization codes *)
          match gorm.DeleteWhere gorm.AuthorizationCodes db2
                  (fun c => OauthAuthorizationCode.ExpiresAt c <? now) with
          | (db3, Some err) =>
              (mk db3 (cache s),
               Some (Wrapf "failed to cleanup expired authorization codes" err))
          | (db3, None) => (mk db3 (cache s), None)
          end
      end
  end.

End with_cache.
Arguments t C : clear implicits.
End PostgreSQLStorage.

(** ** Token validation (oauth/authenticate.go) *)

Module oauth.

(** Modelled from the spec: the configuration types are declared outside
    the sources; the lifetimes are numbers of seconds (Go [int]). *)
Record OauthConfig : Type := mkOauthConfig
  { AccessTokenLifetime : Z; RefreshTokenLifetime : Z; AuthCodeLifetime : Z }.

Record Service : Type := mk { cnf : OauthConfig; db : gorm.DB }.

(** The rows the update of [Authenticate] selects: [client_id = ?] and
    then [user_id = ?] or [user_id IS NULL]. *)
Definition refresh_tokens_query (accessToken : OauthAccessToken.t)
    (r : OauthRefreshToken.t) : bool :=
  gorm.column_eq (OauthRefreshToken.ClientID r)
    (sql.String_ (OauthAccessToken.ClientID accessToken))
  && (if sql.Valid (OauthAccessToken.UserID accessToken)
      then gorm.column_eq (OauthRefreshToken.UserID r)
             (sql.String_ (OauthAccessToken.UserID accessToken))
      else gorm.column_is_null (OauthRefreshToken.UserID r)).

(* Authenticate checks the access token is valid *)
Definition Authenticate (now : Time) (s : Service) (token : string)
  : Service * option OauthAccessToken.t * option error :=
  (* Fetch the access token from the database *)
  let '(db1, found) := gorm.First gorm.AccessTokens (db s) token in
  let accessToken :=
    match found with inl a => a | inr _ => OauthAccessToken.zero end in
  let notFound :=
    match found with
    | inl _ => false
    | inr err => gorm.IsRecordNotFoundError err
    end in
  (* Not found *)
  if notFound then (mk (cnf s) db1, None, Some ErrAccessTokenNotFound)
  (* Check the access token hasn't expired *)
  else if time.After now (OauthAccessToken.ExpiresAt accessToken)
  then (mk (cnf s) db1, None, Some ErrAccessTokenExpired)
  else
    (* Extend refresh token expiration database *)
    let increasedExpiresAt :=
      time.Add now (time.Seconds (RefreshTokenLifetime (cnf s))) in
    match gorm.UpdateColumn gorm.RefreshTokens db1
            (refresh_tokens_query accessToken)
            (fun r => OauthRefreshToken.with_ExpiresAt r increasedExpiresAt) with
    | (db2, Some err) => (mk (cnf s) db2, None, Some err)
    | (db2, None) => (mk (cnf s) db2, Some accessToken, None)
    end.

(** The refresh tokens that share the owner of an access token: their
    client is the one the access token names and their user is the access
    token's user, or absent when the access token has none. *)
Definition shares_owner (a : OauthAccessToken.t) (r : OauthRefreshToken.t)
  : Prop :=
  OauthRefreshToken.ClientID r = sql.some (sql.String_ (OauthAccessToken.ClientID a))
  ∧ if sql.Valid (OauthAccessToken.UserID a)
    then OauthRefreshToken.UserID r
         = sql.some (sql.String_ (OauthAccessToken.UserID a))
    else sql.Valid (OauthRefreshToken.UserID r) = false.

End oauth.

(** ** The cache configuration and the TTL the specification asks for *)

Module storage.

(* CacheConfig defines caching configuration; the provider-specific
   settings are left out *)
Record CacheConfig : Type := mkCacheConfig
  { Provider : string; TTL : Duration }.


End storage.

(** ** The default scope, as the specification words it

    Modelled from the spec: "exactly the set of scopes marked default
    forms the scope granted when a request omits scope".  A scope string
    lists scope names separated by spaces. *)

Module scope.

(** The names of the stored scopes whose "is default" flag is set. *)
Definition default_names (scopes : gmap string OauthScope.t) : gset string :=
  list_to_set
    (OauthScope.Scope <$>
       List.filter OauthScope.IsDefault (snd <$> map_to_list scopes)).

Definition is_space (c : Ascii.ascii) : bool := bool_decide (c = " "%char).

(** The space-separated fields of a string; [word] is the field being
    read. *)
Fixpoint fields_from (word : string) (s : string) : list string :=
  match s with
  | EmptyString => if decide (word = "") then [] else [word]
  | String c rest =>
      if is_space c
      then if decide (word = "") then fields_from "" rest
           else word :: fields_from "" rest
      else fields_from (word ++ String c "") rest
  end.

Definition names (scope : string) : gset string :=
  list_to_set (fields_from "" scope).

End scope.

(** ** The factory (storage/factory.go)

    The configuration records carry the fields the factory reads; the
    untyped provider settings ([Config]) are read by nothing and are left
    out.  The only storage the factory creates is the in-memory backend,
    the only cache the in-memory cache. *)

Module factory.

Record StorageBackend : Type := mkStorageBackend { Type_ : string }.

Record StorageConfig : Type := mkStorageConfig
  { Primary : StorageBackend; Cache : option storage.CacheConfig }.

Record MonitoringConfig : Type := mkMonitoringConfig
  { Enabled : bool; Provider : string; Namespace : string; Subsystem : string }.

Inductive MetricsProvider : Type :=
  | PrometheusMetrics (namespace subsystem : string)
  | NoOpMetrics.

(* CreateStorage creates a storage backend based on configuration *)
Definition CreateStorage (config : StorageConfig)
  : option MemoryStorage.t * option error :=
  let type := Type_ (Primary config) in
  if bool_decide (type = "memory") || bool_decide (type = "") then
    (Some MemoryStorage.NewMemoryStorage, None)
  else if bool_decide (type = "postgres") then
    (None, Some (Errorf "postgres storage implementation needed"))
  else if bool_decide (type = "mongodb") then
    (None, Some (Errorf "mongodb storage not yet implemented"))
  else if bool_decide (type = "mysql") then
    (None, Some (Errorf "mysql storage not yet implemented"))
  else (None, Some (Errorf ("unsupported storage type: " ++ type))).

(* CreateCache creates a cache provider based on configuration *)
Definition CreateCache (config : storage.CacheConfig)
  : option MemoryCache.t * option error :=
  let provider := storage.Provider config in
  if bool_decide (provider = "redis") then
    (None, Some (Errorf "redis cache implementation needed"))
  else if bool_decide (provider = "memory") then
    (Some MemoryCache.NewMemoryCache, None)
  else (None, Some (Errorf ("unsupported cache provider: " ++ provider))).

(* CreateMetrics creates a metrics provider based on configuration *)
Definition CreateMetrics (config : MonitoringConfig)
  : option MetricsProvider * option error :=
  let provider := Provider config in
  if bool_decide (provider = "prometheus") then
    (Some (PrometheusMetrics (Namespace config) (Subsystem config)), None)
  else if bool_decide (provider = "datadog") then
    (None, Some (Errorf "datadog metrics not yet implemented"))
  else (Some NoOpMetrics, None). (* "noop", and the default: no-op metrics *)

End factory.

(** ** The SDK builder and the password grant (package oauth2server) *)

(** Running a function that may dereference a nil pointer. *)
Inductive Run (A : Type) : Type :=
  | Done (a : A)
  | NilDereference.
Arguments Done {A}.
Arguments NilDereference {A}.

Module PerformanceConfig.
Record t : Type := mk
  { AccessTokenTTL : Duration; RefreshTokenTTL : Duration; AuthCodeTTL : Duration;
    TokenWorkers : Z; CleanupInterval : Duration; BatchSize : Z }.
End PerformanceConfig.

Module SecurityConfig.
Record t : Type := mk
  { TokenEncryption : bool; EncryptionKey : string;
    MinPasswordLength : Z; RequireUppercase : bool; RequireNumbers : bool;
    RequireSymbols : bool; SecureCookies : bool; HTTPOnly : bool }.
End SecurityConfig.

Module RateLimitConfig.
Record t : Type := mk
  { Enabled : bool; DefaultRPS : Z; BurstSize : Z; WindowSize : Duration;
    Storage : string }.
End RateLimitConfig.

Module oauth2server.

(** The three settings are pointers: [None] is nil. *)
Record SDKConfig : Type := mkSDKConfig
  { Storage : factory.StorageConfig;
    Performance : option PerformanceConfig.t;
    Security : option SecurityConfig.t;
    RateLimit : option RateLimitConfig.t }.

Record Builder : Type := mkBuilder { config : SDKConfig }.

(** [storage], [cache] and [rateLimiter] are interface values, [None]
    when nil; they hold what the factory and [createRateLimiter]
    returned. *)
Record SDK : Type := mkSDK
  { storage : option MemoryStorage.t;
    cache : option MemoryCache.t;
    sdk_config : SDKConfig;
    rateLimiter : option unit }.

Record TokenResponse : Type := mkTokenResponse
  { AccessToken : string; TokenType : string; ExpiresIn : Z;
    RefreshToken : string; Scope : string }.

Definition with_Storage (b : Builder) (x : factory.StorageConfig) : Builder :=
  mkBuilder (mkSDKConfig x (Performance (config b)) (Security (config b))
               (RateLimit (config b))).

(* New creates a new OAuth2 SDK builder *)
Definition New : Builder :=
  mkBuilder
    (mkSDKConfig
       (factory.mkStorageConfig (factory.mkStorageBackend "") None)
       (Some (PerformanceConfig.mk time.Hour (14 * 24 * time.Hour)
                (10 * time.Minute) 10 time.Hour 1000))
       (Some (SecurityConfig.mk true "" 8 true true false true true))
       (Some (RateLimitConfig.mk true 1000 100 time.Minute "memory"))).

(* WithPostgreSQL configures PostgreSQL as the primary storage backend *)
Definition WithPostgreSQL (b : Builder) (connectionString : string) : Builder :=
  with_Storage b
    (factory.mkStorageConfig (factory.mkStorageBackend "postgres")
       (factory.Cache (Storage (config b)))).

(* WithRedisCache configures Redis caching for high performance *)
Definition WithRedisCache (b : Builder) (connectionString : string) : Builder :=
  with_Storage b
    (factory.mkStorageConfig (factory.Primary (Storage (config b)))
       (Some (storage.mkCacheConfig "redis" (5 * time.Minute)))).

(* WithRedisCluster configures Redis Cluster for high availability *)
Definition WithRedisCluster (b : Builder) (addresses : list string) : Builder :=
  with_Storage b
    (factory.mkStorageConfig (factory.Primary (Storage (config b)))
       (Some (storage.mkCacheConfig "redis" (5 * time.Minute)))).

(* WithMemoryCache configures in-memory caching (for development/testing) *)
Definition WithMemoryCache (b : Builder) (maxSize : Z) : Builder :=
  with_Storage b
    (factory.mkStorageConfig (factory.Primary (Storage (config b)))
       (Some (storage.mkCacheConfig "memory" (5 * time.Minute)))).

(* WithRateLimit configures rate limiting per client; it writes through
   the RateLimit pointer *)
Definition WithRateLimit (b : Builder) (rpsPerClient : Z) : Run Builder :=
  match RateLimit (config b) with
  | None => NilDereference
  | Some rl =>
      Done (mkBuilder
              (mkSDKConfig (Storage (config b)) (Performance (config b))
                 (Security (config b))
                 (Some (RateLimitConfig.mk (RateLimitConfig.Enabled rl)
                          rpsPerClient (RateLimitConfig.BurstSize rl)
                          (RateLimitConfig.WindowSize rl)
                          (RateLimitConfig.Storage rl)))))
  end.

(* WithCustomRateLimit configures advanced rate limiting *)
Definition WithCustomRateLimit (b : Builder) (c : option RateLimitConfig.t)
  : Builder :=
  mkBuilder (mkSDKConfig (Storage (config b)) (Performance (config b))
               (Security (config b)) c).

(* WithPerformance configures performance optimization settings *)
Definition WithPerformance (b : Builder) (c : option PerformanceConfig.t)
  : Builder :=
  mkBuilder (mkSDKConfig (Storage (config b)) c (Security (config b))
               (RateLimit (config b))).

(* WithSecurity configures security settings *)
Definition WithSecurity (b : Builder) (c : option SecurityConfig.t) : Builder :=
  mkBuilder (mkSDKConfig (Storage (config b)) (Performance (config b)) c
               (RateLimit (config b))).

Definition createRateLimiter (c : option RateLimitConfig.t)
  : option unit * option error :=
  (None, None).

(* Build creates and initializes the OAuth2 SDK *)
Definition Build (b : Builder) : option SDK * option error :=
  (* Create cache provider *)
  let created :=
    match factory.Cache (Storage (config b)) with
    | Some cacheConfig =>
        match factory.CreateCache cacheConfig with
        | (_, Some err) => inr (Wrapf "failed to create cache provider" err)
        | (cache, None) => inl cache
        end
    | None => inl None
    end in
  match created with
  | inr err => (None, Some err)
  | inl cache =>
      (* Create storage backend *)
      match factory.CreateStorage (Storage (config b)) with
      | (_, Some err) =>
          (None, Some (Wrapf "failed to create storage backend" err))
      | (storageBackend, None) =>
          (* Create rate limiter *)
          match createRateLimiter (RateLimit (config b)) with
          | (_, Some err) =>
              (None, Some (Wrapf "failed to create rate limiter" err))
          | (rateLimiter, None) =>
              (Some (mkSDK storageBackend cache (config b) rateLimiter), None)
          end
      end
  end.

(* Helper methods *)
Definition verifyClientSecret (s : SDK) (client : OauthClient.t)
    (secret : string) : bool :=
  true.

Definition generateTokens (s : SDK) (client : OauthClient.t)
    (user : OauthUser.t) (scope : string)
  : option OauthAccessToken.t * option OauthRefreshToken.t * option error :=
  (None, None, None).

(** [int(d.Seconds())]: the source converts through a float64; the whole
    seconds of the duration are taken here. *)
Definition whole_seconds (d : Duration) : Z := Z.quot d time.Second.

(* High-performance token operations *)
Definition GrantPasswordToken `{Bcrypt} (now : Time) (s : SDK)
    (clientID clientSecret username password scope : string)
  : Run (option TokenResponse * option error) :=
  match storage s with
  | None => NilDereference (* a method call on the nil interface *)
  | Some backend =>
      (* Authenticate client *)
      match MemoryStorage.GetClient backend clientID with
      | (_, Some err) => Done (None, Some (Wrapf "failed to get client" err))
      | (None, None) => Done (None, Some (Errorf "invalid client credentials"))
      | (Some client, None) =>
          if negb (verifyClientSecret s client clientSecret)
          then Done (None, Some (Errorf "invalid client credentials"))
          else
            (* Authenticate user *)
            match MemoryStorage.AuthenticateUser backend username password with
            | (_, Some err) =>
                Done (None, Some (Wrapf "failed to authenticate user" err))
            | (None, None) =>
                Done (None, Some (Errorf "invalid user credentials"))
            | (Some user, None) =>
                (* Generate tokens *)
                match generateTokens s client user scope with
                | (_, _, Some err) =>
                    Done (None, Some (Wrapf "failed to generate tokens" err))
                | (Some accessToken, Some refreshToken, None) =>
                    Done (Some (mkTokenResponse
                                  (OauthAccessToken.Token accessToken) "Bearer"
                                  (whole_seconds
                                     (time.Until now
                                        (OauthAccessToken.ExpiresAt accessToken)))
                                  (OauthRefreshToken.Token refreshToken) scope),
                          None)
                | (_, _, None) =>
                    (* accessToken.Token or refreshToken.Token on nil *)
                    NilDereference
                end
            end
      end
  end.

End oauth2server.

(** * Properties *)

(** ** The in-memory backend *)

Section memory_delete.
Import MemoryStorage.

Lemma delete_twice {V} (k : string) (m : gmap string V) :
  delete k (delete k m) = delete k m.
Proof. apply delete_id, lookup_delete_eq. Qed.

(** C9: each delete of the in-memory backend (DeleteClient,
    DeleteAccessToken, DeleteRefreshToken, DeleteAuthorizationCode) returns
    the nil error for every store and every key, present or absent, and
    deleting the same key a second time again returns nil and leaves the
    store as the first delete left it. *)
Theorem memory_deletes_succeed_and_idempotent (m : t) (k : string) :
  (DeleteClient m k).2 = None
  ∧ (DeleteAccessToken m k).2 = None
  ∧ (DeleteRefreshToken m k).2 = None
  ∧ (DeleteAuthorizationCode m k).2 = None
  ∧ DeleteClient (DeleteClient m k).1 k = ((DeleteClient m k).1, None)
  ∧ DeleteAccessToken (DeleteAccessToken m k).1 k
    = ((DeleteAccessToken m k).1, None)
  ∧ DeleteRefreshToken (DeleteRefreshToken m k).1 k
    = ((DeleteRefreshToken m k).1, None)
  ∧ DeleteAuthorizationCode (DeleteAuthorizationCode m k).1 k
    = ((DeleteAuthorizationCode m k).1, None).
Proof.
  repeat split; destruct m; cbn;
    unfold DeleteClient, DeleteAccessToken, DeleteRefreshToken,
      DeleteAuthorizationCode, set_clients, set_accessTokens,
      set_refreshTokens, set_authCodes; cbn;
    by rewrite delete_twice.
Qed.

End memory_delete.

(** ** Time and durations *)

Lemma After_spec (t u : Time) : time.After t u = true ↔ u < t.
Proof. unfold time.After. apply Z.ltb_lt. Qed.

Lemma After_false (t u : Time) : time.After t u = false ↔ t ≤ u.
Proof. unfold time.After. apply Z.ltb_ge. Qed.

Lemma Before_spec (t u : Time) : time.Before t u = true ↔ t < u.
Proof. unfold time.Before. apply Z.ltb_lt. Qed.

Lemma Before_false (t u : Time) : time.Before t u = false ↔ u ≤ t.
Proof. unfold time.Before. apply Z.ltb_ge. Qed.

Lemma sat64_exact (z : Z) : int64_min ≤ z ≤ int64_max → sat64 z = z.
Proof. unfold sat64. lia. Qed.

Lemma wrap64_exact (z : Z) : int64_min ≤ z ≤ int64_max → wrap64 z = z.
Proof.
  unfold wrap64, int64_min, int64_max. intros Hz.
  rewrite Z.mod_small; lia.
Qed.

(** A lifetime of at most 9223372036 seconds (some 292 years) is
    converted to nanoseconds without wrap-around. *)
Lemma Seconds_exact (n : Z) :
  -9223372036 ≤ n ≤ 9223372036 → time.Seconds n = n * 1000000000.
Proof.
  intros Hn. unfold time.Seconds, time.Second. apply wrap64_exact.
  unfold int64_min, int64_max. lia.
Qed.

(** [time.Until] never exceeds the time that remains, and is the time
    that remains whenever that fits a [Duration]. *)
Lemma Until_le_remaining (now t : Time) : time.Until now t ≤ Z.max 0 (t - now).
Proof. unfold time.Until, time.Sub, sat64, int64_min, int64_max. lia. Qed.

Lemma Until_exact (now t : Time) :
  int64_min ≤ t - now ≤ int64_max → time.Until now t = t - now.
Proof. apply sat64_exact. Qed.

(** ** The relational store *)

Lemma send_healthy (db : gorm.DB) :
  gorm.faults db = [] → gorm.send db = (db, None).
Proof. destruct db; cbn. by intros ->. Qed.

Lemma send_faulty (db : gorm.DB) (e : error) (fs : FaultScript) :
  gorm.faults db = Some e :: fs → gorm.send db = (gorm.set_faults db fs, Some e).
Proof. destruct db; cbn. by intros ->. Qed.

Lemma First_healthy {V} (T : gorm.Table V) (db : gorm.DB) (key : string) :
  gorm.faults db = [] →
  gorm.First T db key
  = (db, match gorm.rows T db !! key with
         | Some row => inl row
         | None => inr ErrRecordNotFound
         end).
Proof.
  intros Hdb. unfold gorm.First. rewrite send_healthy by done.
  by destruct (gorm.rows T db !! key).
Qed.

Lemma First_faulty {V} (T : gorm.Table V) (db : gorm.DB) (key : string) e fs :
  gorm.faults db = Some e :: fs →
  gorm.First T db key = (gorm.set_faults db fs, inr e).
Proof. intros Hdb. unfold gorm.First. by rewrite (send_faulty _ e fs). Qed.

(** ** Token validation *)

(** The in-memory lookup of an access token returns the token up to and
    including its expiry instant. *)
Lemma memory_GetAccessToken_spec (now : Time) (m : MemoryStorage.t) (k : string) :
  MemoryStorage.GetAccessToken now m k =
    match MemoryStorage.accessTokens m !! k with
    | None => (None, Some ErrTokenNotFound)
    | Some a =>
        if decide (now ≤ OauthAccessToken.ExpiresAt a)
        then (Some a, None) else (None, Some ErrTokenExpired)
    end.
Proof.
  unfold MemoryStorage.GetAccessToken.
  destruct (MemoryStorage.accessTokens m !! k) as [a|]; [|done].
  destruct (time.Before _ now) eqn:Hb.
  - apply Before_spec in Hb. by rewrite decide_False by lia.
  - apply Before_false in Hb. by rewrite decide_True by lia.
Qed.


Section authenticate.
Import oauth.

(** The refresh tokens the update selects are those of the client the
    access token names and of its user, or of no user when it has none. *)
Lemma refresh_tokens_query_spec (a : OauthAccessToken.t) (r : OauthRefreshToken.t) :
  refresh_tokens_query a r = true ↔ shares_owner a r.
Proof.
  unfold refresh_tokens_query, shares_owner, gorm.column_eq, gorm.column_is_null.
  destruct (OauthRefreshToken.ClientID r) as [rc rcv],
    (OauthRefreshToken.UserID r) as [ru ruv],
    (OauthAccessToken.UserID a) as [au auv]; cbn.
  rewrite andb_true_iff, andb_true_iff, bool_decide_eq_true.
  destruct auv; cbn.
  - rewrite andb_true_iff, bool_decide_eq_true. unfold sql.some.
    split.
    + intros [[-> ->] [-> ->]]. done.
    + intros [[= -> ->] [= -> ->]]. done.
  - rewrite negb_true_iff. unfold sql.some.
    split.
    + intros [[-> ->] ->]. done.
    + intros [[= -> ->] ->]. done.
Qed.

(** For an access token that names its client, as every stored one does,
    sharing the owner is having the same client and the same user. *)
Lemma shares_owner_valid (a : OauthAccessToken.t) (r : OauthRefreshToken.t) :
  sql.Valid (OauthAccessToken.ClientID a) = true →
  shares_owner a r
  ↔ OauthRefreshToken.ClientID r = OauthAccessToken.ClientID a
    ∧ if sql.Valid (OauthAccessToken.UserID a)
      then OauthRefreshToken.UserID r = OauthAccessToken.UserID a
      else sql.Valid (OauthRefreshToken.UserID r) = false.
Proof.
  unfold shares_owner, sql.some.
  destruct (OauthAccessToken.ClientID a) as [ac acv],
    (OauthAccessToken.UserID a) as [au auv]; cbn.
  intros ->. by destruct auv.
Qed.

Lemma Authenticate_healthy (now : Time) (s : Service) (token : string) :
  gorm.faults (db s) = [] →
  Authenticate now s token =
    match gorm.oauth_access_tokens (db s) !! token with
    | None => (s, None, Some ErrAccessTokenNotFound)
    | Some a =>
        if time.After now (OauthAccessToken.ExpiresAt a)
        then (s, None, Some ErrAccessTokenExpired)
        else
          (mk (cnf s)
             (gorm.set_rows gorm.RefreshTokens (db s)
                ((fun r =>
                    if refresh_tokens_query a r
                    then OauthRefreshToken.with_ExpiresAt r
                           (time.Add now (time.Seconds (RefreshTokenLifetime (cnf s))))
                    else r) <$> gorm.oauth_refresh_tokens (db s))),
           Some a, None)
    end.
Proof.
  intros Hdb. unfold Authenticate. rewrite First_healthy by done.
  destruct s as [c d]; cbn in *.
  destruct (gorm.oauth_access_tokens d !! token) as [a|]; cbn; [|done].
  destruct (time.After now (OauthAccessToken.ExpiresAt a)); [done|].
  unfold gorm.UpdateColumn. by rewrite send_healthy.
Qed.

(** When the lookup itself fails, the failure is not told apart from a
    record that was found: the zero access token is examined, and any
    current time after the zero instant yields ErrAccessTokenExpired. *)
Lemma Authenticate_lookup_failure (now : Time) (s : Service) (token : string)
    (e : error) (fs : FaultScript) :
  gorm.faults (db s) = Some e :: fs →
  e ≠ ErrRecordNotFound →
  time.zero < now →
  (Authenticate now s token).1.2 = None
  ∧ (Authenticate now s token).2 = Some ErrAccessTokenExpired.
Proof.
  intros Hdb Hne Hnow. unfold Authenticate.
  rewrite (First_faulty _ _ _ e fs) by done.
  unfold gorm.IsRecordNotFoundError. rewrite bool_decide_eq_false_2 by done.
  cbn [OauthAccessToken.ExpiresAt OauthAccessToken.zero].
  by rewrite (proj2 (After_spec _ _) Hnow).
Qed.

(** C1 (as the code has it): while the database answers, Authenticate
    returns the access token stored under the token string exactly when
    there is one and the current time is not after its expiry; it fails
    with ErrAccessTokenNotFound when there is none and with
    ErrAccessTokenExpired when the current time is strictly after the
    expiry.  At the expiry instant itself the token is still accepted.
    GetAccessToken of the in-memory backend draws the same line. *)
Theorem authenticate_valid_through_expiry
    (now : Time) (s : Service) (token : string) :
  gorm.faults (db s) = [] →
  let found := gorm.oauth_access_tokens (db s) !! token in
  let '(_, result, err) := Authenticate now s token in
  (∀ a, result = Some a ∧ err = None
        ↔ found = Some a ∧ now ≤ OauthAccessToken.ExpiresAt a)
  ∧ (found = None → result = None ∧ err = Some ErrAccessTokenNotFound)
  ∧ (∀ a, found = Some a → OauthAccessToken.ExpiresAt a < now →
          result = None ∧ err = Some ErrAccessTokenExpired)
  ∧ (∀ (m : MemoryStorage.t) a,
       MemoryStorage.GetAccessToken now m token = (Some a, None)
       ↔ MemoryStorage.accessTokens m !! token = Some a
         ∧ now ≤ OauthAccessToken.ExpiresAt a).
Proof.
  intros Hdb found. rewrite Authenticate_healthy by done. subst found.
  assert (∀ (m : MemoryStorage.t) a,
            MemoryStorage.GetAccessToken now m token = (Some a, None)
            ↔ MemoryStorage.accessTokens m !! token = Some a
              ∧ now ≤ OauthAccessToken.ExpiresAt a) as Hmem.
  { intros m a. rewrite memory_GetAccessToken_spec.
    destruct (MemoryStorage.accessTokens m !! token) as [a0|].
    - case_decide; split; try (by intros [= <-]); try done.
      + by intros [[= <-] _].
      + intros [[= <-] ?]. lia.
    - split; [done|]. by intros [? _]. }
  destruct (gorm.oauth_access_tokens (db s) !! token) as [a|].
  - destruct (time.After now (OauthAccessToken.ExpiresAt a)) eqn:Hafter.
    + apply After_spec in Hafter. split_and!; [|done|done|done].
      intros a'. split; [intros [? ?]; done|]. intros [[= <-] ?]. lia.
    + apply After_false in Hafter. split_and!; [|done| |done].
      * intros a'. split; [by intros [[= <-] _]|]. by intros [[= <-] _].
      * intros a' [= <-] ?. lia.
  - split_and!; [|done|done|done].
    intros a. split; intros [? ?]; done.
Qed.

(** C1, the claim as stated fails: at the very instant of its expiry
    (now = 1000 = ExpiresAt) a stored access token is returned with a nil
    error instead of being refused with ErrAccessTokenExpired. *)
Lemma authenticate_accepts_token_at_expiry_instant :
  let tok :=
    OauthAccessToken.mk "t1" (sql.some "c1") sql.null None None "read" 1000 0 in
  let s :=
    mk (mkOauthConfig 3600 1209600 3600)
       (gorm.set_rows gorm.AccessTokens gorm.empty {["t1" := tok]}) in
  ¬ (1000 < OauthAccessToken.ExpiresAt tok)
  ∧ Authenticate 1000 s "t1" = (s, Some tok, None).
Proof. split; [cbn; lia | by vm_compute]. Qed.

Lemma authenticate_valid_through_expiry_witness :
  let tok :=
    OauthAccessToken.mk "t1" (sql.some "c1") sql.null None None "read" 1000 0 in
  let s :=
    mk (mkOauthConfig 3600 1209600 3600)
       (gorm.set_rows gorm.AccessTokens gorm.empty {["t1" := tok]}) in
  gorm.faults (db s) = []
  ∧ (Authenticate 999 s "t1").1.2 = Some tok
  ∧ (Authenticate 999 s "t1").2 = None.
Proof.
  intros tok s. split; [reflexivity|].
  pose proof (authenticate_valid_through_expiry 999 s "t1" eq_refl) as Hspec.
  cbv zeta in Hspec.
  destruct (Authenticate 999 s "t1") as [[s1 result] err].
  destruct Hspec as (Hiff & _). apply (Hiff tok).
  split; [reflexivity | by vm_compute].
Defined.

(** What a successful call has done to the database: only the refresh
    tokens changed, by the update on the rows the query selects. *)
Lemma Authenticate_success (now : Time) (s s' : Service) (token : string)
    (a : OauthAccessToken.t) :
  Authenticate now s token = (s', Some a, None) →
  cnf s' = cnf s
  ∧ gorm.oauth_access_tokens (db s') = gorm.oauth_access_tokens (db s)
  ∧ gorm.oauth_refresh_tokens (db s')
    = (fun r =>
         if refresh_tokens_query a r
         then OauthRefreshToken.with_ExpiresAt r
                (time.Add now (time.Seconds (RefreshTokenLifetime (cnf s))))
         else r) <$> gorm.oauth_refresh_tokens (db s).
Proof.
  unfold Authenticate, gorm.First, gorm.UpdateColumn, gorm.send.
  destruct s as [c d], d as [cl us ats rts acs fs]; cbn.
  destruct (next_fault fs) as [[e|] fs1]; cbn.
  - destruct (gorm.IsRecordNotFoundError e); [done|].
    destruct (time.After now _); [done|].
    destruct (next_fault fs1) as [[e2|] fs2]; cbn; [done|].
    by intros [= <- <-].
  - destruct (ats !! token) as [a0|]; cbn; [|done].
    destruct (time.After now _); [done|].
    destruct (next_fault fs1) as [[e2|] fs2]; cbn; [done|].
    by intros [= <- <-].
Qed.

(** C3 (as the code has it): after a successful Authenticate, every
    refresh token whose client is the access token's client and whose
    user is the access token's user (or absent when the access token has
    none) has its expiry set to the current time plus the configured
    refresh-token lifetime; every other refresh token is untouched; and
    the expiry of a refresh token does not decrease provided it was not
    already beyond the current time plus the lifetime. *)
Theorem authenticate_extends_refresh_tokens
    (now : Time) (s s' : Service) (token : string) (a : OauthAccessToken.t) :
  Authenticate now s token = (s', Some a, None) →
  let extended := time.Add now (time.Seconds (RefreshTokenLifetime (cnf s))) in
  ∀ (k : string) (r : OauthRefreshToken.t),
    gorm.oauth_refresh_tokens (db s) !! k = Some r →
    ∃ r', gorm.oauth_refresh_tokens (db s') !! k = Some r'
      ∧ (shares_owner a r → r' = OauthRefreshToken.with_ExpiresAt r extended)
      ∧ (¬ shares_owner a r → r' = r)
      ∧ (OauthRefreshToken.ExpiresAt r ≤ extended →
         OauthRefreshToken.ExpiresAt r ≤ OauthRefreshToken.ExpiresAt r').
Proof.
  intros Hok extended k r Hk.
  destruct (Authenticate_success _ _ _ _ _ Hok) as (_ & _ & ->).
  rewrite lookup_fmap, Hk. cbn.
  destruct (refresh_tokens_query a r) eqn:Hq.
  - apply refresh_tokens_query_spec in Hq.
    eexists. split_and!; [done|done|done|]. by cbn.
  - assert (¬ shares_owner a r) as Hno.
    { rewrite <- refresh_tokens_query_spec. by rewrite Hq. }
    eexists. split_and!; [done|done|done|]. lia.
Qed.

(** The rows of the refresh-token table stay the same rows: no key is
    added or removed by the call. *)
Lemma authenticate_keeps_refresh_token_keys
    (now : Time) (s s' : Service) (token : string) (a : OauthAccessToken.t) :
  Authenticate now s token = (s', Some a, None) →
  dom (gorm.oauth_refresh_tokens (db s')) = dom (gorm.oauth_refresh_tokens (db s)).
Proof.
  intros Hok. destruct (Authenticate_success _ _ _ _ _ Hok) as (_ & _ & ->).
  apply dom_fmap_L.
Qed.

(** C3, the claim as stated fails: a refresh token issued under a 14-day
    lifetime and now validated under a configured lifetime of one hour
    has its expiry moved back, from 1209600 s to 1000 s + 3600 s. *)
Lemma authenticate_can_shorten_refresh_token :
  let tok :=
    OauthAccessToken.mk "t1" (sql.some "c1") sql.null None None "read"
      (3600 * time.Second) 0 in
  let rt :=
    OauthRefreshToken.mk "r1" (sql.some "c1") sql.null "read"
      (1209600 * time.Second) 0 in
  let s :=
    mk (mkOauthConfig 3600 3600 3600)
       (gorm.set_rows gorm.RefreshTokens
          (gorm.set_rows gorm.AccessTokens gorm.empty {["t1" := tok]})
          {["r1" := rt]}) in
  let '(s', result, err) := Authenticate (1000 * time.Second) s "t1" in
  result = Some tok ∧ err = None
  ∧ OauthRefreshToken.ExpiresAt <$> gorm.oauth_refresh_tokens (db s') !! "r1"
    = Some (4600 * time.Second)
  ∧ 4600 * time.Second < OauthRefreshToken.ExpiresAt rt.
Proof. by vm_compute. Qed.

Lemma authenticate_extends_refresh_tokens_witness :
  let tok :=
    OauthAccessToken.mk "t1" (sql.some "c1") sql.null None None "read"
      (3600 * time.Second) 0 in
  let rt :=
    OauthRefreshToken.mk "r1" (sql.some "c1") sql.null "read"
      (1800 * time.Second) 0 in
  let s :=
    mk (mkOauthConfig 3600 1209600 3600)
       (gorm.set_rows gorm.RefreshTokens
          (gorm.set_rows gorm.AccessTokens gorm.empty {["t1" := tok]})
          {["r1" := rt]}) in
  let s' :=
    mk (mkOauthConfig 3600 1209600 3600)
       (gorm.set_rows gorm.RefreshTokens
          (gorm.set_rows gorm.AccessTokens gorm.empty {["t1" := tok]})
          {["r1" := OauthRefreshToken.with_ExpiresAt rt
                      (1210600 * time.Second)]}) in
  Authenticate (1000 * time.Second) s "t1" = (s', Some tok, None)
  ∧ ∃ r', gorm.oauth_refresh_tokens (db s') !! "r1" = Some r'
      ∧ (shares_owner tok rt →
         r' = OauthRefreshToken.with_ExpiresAt rt
                (time.Add (1000 * time.Second)
                   (time.Seconds (RefreshTokenLifetime (cnf s)))))
      ∧ (¬ shares_owner tok rt → r' = rt)
      ∧ (OauthRefreshToken.ExpiresAt rt
         ≤ time.Add (1000 * time.Second)
             (time.Seconds (RefreshTokenLifetime (cnf s))) →
         OauthRefreshToken.ExpiresAt rt ≤ OauthRefreshToken.ExpiresAt r').
Proof.
  intros tok rt s s'.
  assert (Authenticate (1000 * time.Second) s "t1" = (s', Some tok, None))
    as Hrun by (by vm_compute).
  split; [exact Hrun|].
  apply (authenticate_extends_refresh_tokens _ s s' "t1" tok Hrun "r1" rt).
  by vm_compute.
Defined.

End authenticate.

(** ** The in-memory backend: lookups, credentials, cleanup, scopes *)

Section memory.
Import MemoryStorage.

(** The in-memory backend checks the password: the stored user is
    returned exactly when the username is known, a credential is stored
    and the hash comparison accepts the password. *)
Lemma memory_AuthenticateUser_spec `{Bcrypt} (m : t) (username password : string) :
  AuthenticateUser m username password =
    match users m !! username with
    | None => (None, Some ErrUserNotFound)
    | Some user =>
        if sql.Valid (OauthUser.Password user)
           && bool_decide
                (CompareHashAndPassword
                   (sql.String_ (OauthUser.Password user)) password = None)
        then (Some user, None)
        else (None, Some ErrInvalidCredentials)
    end.
Proof.
  unfold AuthenticateUser, GetUser.
  destruct (users m !! username) as [user|]; [|done].
  destruct (sql.Valid _); [|done]. cbn.
  by destruct (CompareHashAndPassword _ password).
Qed.

(** What the cleanup removes and keeps: access and refresh tokens whose
    expiry is strictly before [now] go, the others stay as they are. *)
Lemma memory_cleanup_access_tokens (now : Time) (m : t) (k : string) :
  accessTokens (CleanupExpiredTokens now m).1 !! k =
    match accessTokens m !! k with
    | Some a =>
        if decide (OauthAccessToken.ExpiresAt a < now) then None else Some a
    | None => None
    end.
Proof.
  cbn. rewrite map_lookup_filter.
  destruct (accessTokens m !! k) as [a|]; cbn; [|done].
  case_guard as Hg; cbn in Hg.
  - pose proof (proj1 (Before_false _ _) Hg). cbn.
    by rewrite decide_False by lia.
  - rewrite decide_True; [done|].
    apply Before_spec. by destruct (time.Before _ now).
Qed.

Lemma memory_cleanup_refresh_tokens (now : Time) (m : t) (k : string) :
  refreshTokens (CleanupExpiredTokens now m).1 !! k =
    match refreshTokens m !! k with
    | Some r =>
        if decide (OauthRefreshToken.ExpiresAt r < now) then None else Some r
    | None => None
    end.
Proof.
  cbn. rewrite map_lookup_filter.
  destruct (refreshTokens m !! k) as [r|]; cbn; [|done].
  case_guard as Hg; cbn in Hg.
  - pose proof (proj1 (Before_false _ _) Hg). cbn.
    by rewrite decide_False by lia.
  - rewrite decide_True; [done|].
    apply Before_spec. by destruct (time.Before _ now).
Qed.

(** The cleanup never looks at the authorization codes. *)
Lemma memory_cleanup_ignores_authorization_codes (now : Time) (m : t) :
  authCodes (CleanupExpiredTokens now m).1 = authCodes m.
Proof. done. Qed.

(** C5, the in-memory backend at a store holding one authorization code
    that expired at instant 10: the cleanup run at instant 100 returns
    nil and the expired code is still stored, and still expired. *)
Theorem memory_cleanup_keeps_expired_authorization_code :
  let code :=
    OauthAuthorizationCode.mk "code1" (sql.some "c1") (sql.some "u1")
      (sql.some "https://www.example.com") "read" 10 0 in
  let m := (StoreAuthorizationCode 0 NewMemoryStorage code).1 in
  OauthAuthorizationCode.ExpiresAt code < 100
  ∧ (CleanupExpiredTokens 100 m).2 = None
  ∧ authCodes (CleanupExpiredTokens 100 m).1 !! "code1" = Some code
  ∧ GetAuthorizationCode 100 (CleanupExpiredTokens 100 m).1 "code1"
    = (None, Some ErrCodeExpired).
Proof. by vm_compute. Qed.

(** C8 (as the code has it): whatever scopes are stored and whichever
    of them are flagged default, GetDefaultScope of the in-memory backend
    returns the scope "read" and a nil error. *)
Theorem memory_default_scope_is_read (m : t) :
  GetDefaultScope m = ("read", None).
Proof. done. Qed.

(** C8, the claim as stated fails: with "admin" the only scope flagged
    default, the scope returned is "read", whose names are not the set of
    default scopes. *)
Lemma memory_default_scope_ignores_flags :
  let m :=
    mk ∅ ∅ ∅ ∅ ∅ ∅
       (<["read" := OauthScope.mk "read" false]>
          (<["admin" := OauthScope.mk "admin" true]> ∅)) in
  scope.default_names (scopes m) = {["admin"]}
  ∧ scope.names (GetDefaultScope m).1 = {["read"]}
  ∧ bool_decide (scope.names (GetDefaultScope m).1
                 = scope.default_names (scopes m)) = false.
Proof. by vm_compute. Qed.

End memory.

(** ** Lookups of keys without a record *)

Lemma send_inv (db db1 : gorm.DB) (f : option error) :
  gorm.send db = (db1, f) → ∃ fs, db1 = gorm.set_faults db fs.
Proof.
  unfold gorm.send. destruct (next_fault (gorm.faults db)) as [f' fs].
  intros [= <- <-]. by exists fs.
Qed.


Section absent_keys.
Context {C : Type} `{CacheProvider C}.
Import PostgreSQLStorage.

(** A lookup of the PostgreSQL backend that misses the cache and finds no
    row returns neither a record nor an error. *)
Lemma postgres_GetClient_absent (now : Time) (s : t C) (k : string) :
  (gorm.send (db s)).2 = None →
  gorm.oauth_clients (db s) !! k = None →
  (cache_try_get now (cache s) ("client:" ++ k) (VClient OauthClient.zero)).2 = None →
  (GetClient now s k).1.2 = None ∧ (GetClient now s k).2 = None.
Proof.
  intros Hsend Hrow Hmiss. unfold GetClient, gorm.First.
  destruct (cache_try_get _ _ _ _) as [c1 hit]; cbn in Hmiss; subst hit.
  destruct (gorm.send (db s)) as [db1 f] eqn:Hs; cbn in Hsend; subst f.
  apply send_inv in Hs as [fs ->]. cbn. by rewrite Hrow.
Qed.



Lemma postgres_GetAccessToken_absent (now : Time) (s : t C) (k : string) :
  (gorm.send (db s)).2 = None →
  gorm.oauth_access_tokens (db s) !! k = None →
  (cache_try_get now (cache s) ("access_token:" ++ k)
     (VAccessToken OauthAccessToken.zero)).2 = None →
  (GetAccessToken now s k).1.2 = None ∧ (GetAccessToken now s k).2 = None.
Proof.
  intros Hsend Hrow Hmiss. unfold GetAccessToken, gorm.First.
  destruct (cache_try_get _ _ _ _) as [c1 hit]; cbn in Hmiss; subst hit.
  destruct (gorm.send (db s)) as [db1 f] eqn:Hs; cbn in Hsend; subst f.
  apply send_inv in Hs as [fs ->]. cbn. by rewrite Hrow.
Qed.


End absent_keys.




(** ** The PostgreSQL backend: credentials and cleanup *)

Section postgres_credentials.
Context {C : Type} `{CacheProvider C}.
Import PostgreSQLStorage.

(** The password never enters the result of the PostgreSQL backend. *)
Lemma postgres_AuthenticateUser_password_irrelevant
    (now : Time) (s : t C) (username p1 p2 : string) :
  AuthenticateUser now s username p1 = AuthenticateUser now s username p2.
Proof. done. Qed.

(** While the database answers, its cleanup removes from all three
    tables exactly the rows whose expiry is strictly before [now]. *)
Lemma postgres_cleanup_healthy (now : Time) (s : t C) :
  gorm.faults (db s) = [] →
  ∃ s', CleanupExpiredTokens now s = (s', None)
    ∧ (∀ k, gorm.oauth_access_tokens (db s') !! k
            = match gorm.oauth_access_tokens (db s) !! k with
              | Some a => if decide (OauthAccessToken.ExpiresAt a < now)
                          then None else Some a
              | None => None
              end)
    ∧ (∀ k, gorm.oauth_refresh_tokens (db s') !! k
            = match gorm.oauth_refresh_tokens (db s) !! k with
              | Some r => if decide (OauthRefreshToken.ExpiresAt r < now)
                          then None else Some r
              | None => None
              end)
    ∧ (∀ k, gorm.oauth_authorization_codes (db s') !! k
            = match gorm.oauth_authorization_codes (db s) !! k with
              | Some c => if decide (OauthAuthorizationCode.ExpiresAt c < now)
                          then None else Some c
              | None => None
              end).
Proof.
  intros Hdb. unfold CleanupExpiredTokens, gorm.DeleteWhere.
  destruct s as [d c], d as [cl us ats rts acs fs]; cbn in *; subst fs.
  cbn. eexists. split; [done|]. cbn.
  split_and!; intros k; rewrite map_lookup_filter;
    (destruct (_ !! k) as [x|]; cbn; [|done]);
    case_guard as Hg; cbn in Hg; cbn.
  all: first
    [ pose proof (proj1 (Z.ltb_ge _ _) Hg); by rewrite decide_False by lia
    | rewrite decide_True; [done|]; apply Z.ltb_lt;
      by destruct (_ <? now) ].
Qed.

End postgres_credentials.

(** C2, the PostgreSQL backend at a stored user and a wrong password:
    with alice stored under the hash of another password,
    AuthenticateUser returns alice and a nil error for the password
    "wrong", and for every other password. *)
Theorem postgres_AuthenticateUser_accepts_wrong_password :
  let alice :=
    OauthUser.mk "1" "alice" (sql.some "$2a$10$hash.of.the.password.secret") 0 in
  let s : PostgreSQLStorage.t MemoryCache.t :=
    PostgreSQLStorage.mk
      (gorm.set_rows gorm.Users gorm.empty {["alice" := alice]}) None in
  PostgreSQLStorage.AuthenticateUser 0 s "alice" "wrong" = (s, Some alice, None)
  ∧ ∀ password,
      PostgreSQLStorage.AuthenticateUser 0 s "alice" password
      = (s, Some alice, None).
Proof. split; [|intros password]; by vm_compute. Qed.

(** The in-memory backend refuses the same login whenever the hash
    comparison does. *)
Lemma memory_AuthenticateUser_rejects_wrong_password `{Bcrypt} :
  let alice :=
    OauthUser.mk "1" "alice" (sql.some "$2a$10$hash.of.the.password.secret") 0 in
  let m := (MemoryStorage.CreateUser 0 MemoryStorage.NewMemoryStorage alice).1 in
  CompareHashAndPassword "$2a$10$hash.of.the.password.secret" "wrong" ≠ None →
  MemoryStorage.AuthenticateUser m "alice" "wrong"
  = (None, Some ErrInvalidCredentials).
Proof.
  intros alice m Hwrong. rewrite memory_AuthenticateUser_spec.
  replace (MemoryStorage.users m !! "alice") with (Some alice)
    by by vm_compute.
  cbn. by rewrite bool_decide_eq_false_2.
Qed.

(** ** What the PostgreSQL backend writes to its cache *)

Section cache_writes.
Context {C : Type} `{CacheProvider C}.
Import PostgreSQLStorage.



Lemma recorded_Delete (c : C) (j : list CacheCall) (key : string) :
  journal (cache_Delete (mkRecorded c j) key).1 = (j ++ [CallDelete key])%list.
Proof. cbn. by destruct (cache_Delete c key). Qed.


(** With the in-memory cache the entry written by a successful
    StoreAccessToken expires at [now] plus that TTL, which is no later
    than the token's expiry or, for a token already expired, than
    [now]. *)
Lemma memory_cache_token_entry_expiry (now : Time)
    (s s' : PostgreSQLStorage.t MemoryCache.t) (m : MemoryCache.t)
    (token : OauthAccessToken.t) (o : Outcome) :
  cache s = Some m →
  (gorm.Create gorm.AccessTokens (db s)
     (OauthAccessToken.Token token) token).2 = None →
  StoreAccessToken now s token = (s', o) →
  ∃ m' item,
    cache s' = Some m'
    ∧ MemoryCache.data m' !! ("access_token:" ++ OauthAccessToken.Token token)
      = Some item
    ∧ MemoryCache.Value item = VAccessToken token
    ∧ MemoryCache.ExpiresAt item
      = now + time.Until now (OauthAccessToken.ExpiresAt token)
    ∧ MemoryCache.ExpiresAt item ≤ Z.max now (OauthAccessToken.ExpiresAt token).
Proof.
  intros Hcache Hcreate. unfold StoreAccessToken.
  destruct (gorm.Create _ _ _ _) as [db1 err]; cbn in Hcreate; subst err.
  rewrite Hcache. cbn. intros [= <- _]. cbn.
  eexists _, _. split_and!; [done|apply lookup_insert_eq|done|done|].
  cbn. unfold time.Add.
  pose proof (Until_le_remaining now (OauthAccessToken.ExpiresAt token)). lia.
Qed.

End cache_writes.


(** ** Client updates and the cache *)

Section client_coherence.
Context {C : Type} `{CacheProvider C}.
Import PostgreSQLStorage.

(** A successful UpdateClient has saved the row and called Delete on the
    cache entry of the client, whatever Delete answered. *)
Lemma UpdateClient_success (s s' : t C) (client : OauthClient.t) :
  UpdateClient s client = (s', None) →
  gorm.oauth_clients (db s') !! OauthClient.Key client = Some client
  ∧ cache s' = cache_delete_if_any (cache s) ("client:" ++ OauthClient.Key client).
Proof.
  unfold UpdateClient, gorm.Save.
  destruct (gorm.send (db s)) as [db1 [e|]] eqn:Hs; [done|].
  apply send_inv in Hs as [fs ->]. intros [= <-]. cbn.
  split; [apply lookup_insert_eq | done].
Qed.


Lemma DeleteClient_success (s s' : t C) (clientID : string) :
  DeleteClient s clientID = (s', None) →
  gorm.oauth_clients (db s') !! clientID = None
  ∧ cache s' = cache_delete_if_any (cache s) ("client:" ++ clientID).
Proof.
  unfold DeleteClient, gorm.Delete.
  destruct (gorm.send (db s)) as [db1 [e|]] eqn:Hs; [done|].
  apply send_inv in Hs as [fs ->]. intros [= <-]. cbn.
  split; [apply lookup_delete_eq | done].
Qed.

(** A GetClient that misses the cache reads the row from the database, or
    fails with the database. *)
Lemma GetClient_from_database (now : Time) (s : t C) (k : string)
    (client : OauthClient.t) :
  (cache_try_get now (cache s) ("client:" ++ k) (VClient OauthClient.zero)).2 = None →
  gorm.oauth_clients (db s) !! k = Some client →
  match (gorm.send (db s)).2 with
  | None => (GetClient now s k).1.2 = Some client ∧ (GetClient now s k).2 = None
  | Some e => (GetClient now s k).1.2 = None
  end.
Proof.
  intros Hmiss Hrow. unfold GetClient, gorm.First.
  destruct (cache_try_get _ _ _ _) as [c1 hit]; cbn in Hmiss; subst hit.
  destruct (gorm.send (db s)) as [db1 [e|]] eqn:Hs; cbn [snd].
  - by destruct (gorm.IsRecordNotFoundError e).
  - apply send_inv in Hs as [fs ->]. cbn. by rewrite Hrow.
Qed.


End client_coherence.

(** With the in-memory cache, or without a cache, Delete always takes
    effect: after a successful UpdateClient the cache misses the entry in
    every state it may have been in. *)
Lemma memory_cache_misses_after_delete (now : Time)
    (cache : option MemoryCache.t) (key : string) (dest : CacheValue) :
  (PostgreSQLStorage.cache_try_get now
     (PostgreSQLStorage.cache_delete_if_any cache key) key dest).2 = None.
Proof.
  destruct cache as [m|]; [|done]. cbn.
  unfold MemoryCache.Get. cbn. by rewrite lookup_delete_eq.
Qed.

Lemma get_client_after_update_client_memory_cache
    (now : Time) (s s' : PostgreSQLStorage.t MemoryCache.t)
    (client : OauthClient.t) :
  PostgreSQLStorage.UpdateClient s client = (s', None) →
  (gorm.send (PostgreSQLStorage.db s')).2 = None →
  (PostgreSQLStorage.GetClient now s' (OauthClient.Key client)).1.2 = Some client
  ∧ (PostgreSQLStorage.GetClient now s' (OauthClient.Key client)).2 = None.
Proof.
  intros Hupd Hsend.
  destruct (UpdateClient_success _ _ _ Hupd) as [Hrow Hcache].
  assert ((PostgreSQLStorage.cache_try_get now (PostgreSQLStorage.cache s')
             ("client:" ++ OauthClient.Key client)
             (VClient OauthClient.zero)).2 = None) as Hmiss.
  { rewrite Hcache. apply memory_cache_misses_after_delete. }
  pose proof (GetClient_from_database now s' _ client Hmiss Hrow) as Hget.
  by rewrite Hsend in Hget.
Qed.



(** ** The in-memory cache *)

(** C10: Get of the in-memory cache never writes to its destination.
    After Set(k, v, ttl), a Get(k, dest) made while the entry is not
    expired returns a nil error and leaves in dest what dest held before,
    whatever v is; and in every state of the cache, for every key, Get
    returns the destination as it received it. *)
Theorem memory_cache_get_leaves_destination
    (setAt now : Time) (m : MemoryCache.t) (key : string)
    (v dest : CacheValue) (ttl : Duration) :
  now ≤ time.Add setAt ttl →
  MemoryCache.Get now (MemoryCache.Set_ setAt m key v ttl).1 key dest
  = (dest, None)
  ∧ (∀ (now' : Time) (m' : MemoryCache.t) (key' : string) (dest' : CacheValue),
       (MemoryCache.Get now' m' key' dest').1 = dest').
Proof.
  intros Hlive. split.
  - unfold MemoryCache.Get, MemoryCache.Set_. cbn.
    rewrite lookup_insert_eq. cbn.
    by rewrite (proj2 (After_false _ _) Hlive).
  - intros now' m' key' dest'. unfold MemoryCache.Get.
    destruct (MemoryCache.data m' !! key') as [item|]; [|done].
    by destruct (time.After now' _).
Qed.

Lemma memory_cache_get_leaves_destination_witness :
  let client := OauthClient.mk "c1" "s1" sql.null 0 in
  time.Second ≤ time.Add 0 (5 * time.Minute)
  ∧ MemoryCache.Get time.Second
      (MemoryCache.Set_ 0 MemoryCache.NewMemoryCache "client:c1"
         (VClient client) (5 * time.Minute)).1
      "client:c1" (VClient OauthClient.zero)
    = (VClient OauthClient.zero, None).
Proof.
  intros client. split; [by vm_compute|].
  apply (memory_cache_get_leaves_destination 0 time.Second
           MemoryCache.NewMemoryCache "client:c1" (VClient client)
           (VClient OauthClient.zero) (5 * time.Minute)).
  by vm_compute.
Defined.

(** * Further properties of the code *)

(** ** The in-memory backend: clients and users *)

Section memory_entities.
Import MemoryStorage.

(** X1: CreateClient of the in-memory backend never fails and stores the
    client under its key with the creation time set to the current time,
    replacing whatever client the key held; GetClient for that key then
    returns it, and the other keys answer as before. *)
Theorem memory_create_client_then_get
    (now : Time) (m : t) (client : OauthClient.t) (k : string) :
  (CreateClient now m client).2 = None
  ∧ GetClient (CreateClient now m client).1 (OauthClient.Key client)
    = (Some (OauthClient.with_CreatedAt client now), None)
  ∧ (k ≠ OauthClient.Key client →
     GetClient (CreateClient now m client).1 k = GetClient m k).
Proof.
  unfold CreateClient, GetClient. cbn. split_and!; [done| |].
  - by rewrite lookup_insert_eq.
  - intros Hk. by rewrite lookup_insert_ne.
Qed.

(** X2: UpdateClient of the in-memory backend never creates a client:
    for an unknown key it fails with ErrClientNotFound and leaves the
    store as it is; for a known key it stores the client as given (the
    creation time is not refreshed), and the set of stored keys is the
    same in both cases. *)
Theorem memory_update_client_requires_existing (m : t) (client : OauthClient.t) :
  (clients m !! OauthClient.Key client = None →
   UpdateClient m client = (m, Some ErrClientNotFound))
  ∧ (is_Some (clients m !! OauthClient.Key client) →
     (UpdateClient m client).2 = None
     ∧ GetClient (UpdateClient m client).1 (OauthClient.Key client)
       = (Some client, None))
  ∧ dom (clients (UpdateClient m client).1) = dom (clients m).
Proof.
  unfold UpdateClient, GetClient. split_and!.
  - by intros ->.
  - intros [old ->]. cbn. by rewrite lookup_insert_eq.
  - destruct (clients m !! OauthClient.Key client) as [old|] eqn:Hold; [|done].
    cbn. rewrite dom_insert_L.
    assert (OauthClient.Key client ∈ dom (clients m)) by by apply elem_of_dom.
    set_solver.
Qed.

(** X3: CreateUser files the user under both its username and its id, so
    that GetUser and GetUserByID return the same record, stamped with the
    current time. *)
Theorem memory_create_user_then_get (now : Time) (m : t) (user : OauthUser.t) :
  (CreateUser now m user).2 = None
  ∧ GetUser (CreateUser now m user).1 (OauthUser.Username user)
    = (Some (OauthUser.with_CreatedAt user now), None)
  ∧ GetUserByID (CreateUser now m user).1 (OauthUser.ID user)
    = (Some (OauthUser.with_CreatedAt user now), None).
Proof.
  unfold CreateUser, GetUser, GetUserByID. cbn.
  by rewrite !lookup_insert_eq.
Qed.

(** X4: creating a user under a username that is taken, with another id,
    replaces the record found by username but leaves the old record
    filed under the old id: GetUserByID still returns the replaced
    user. *)
Theorem memory_create_user_keeps_replaced_id
    (now1 now2 : Time) (m : t) (u1 u2 : OauthUser.t) :
  OauthUser.Username u1 = OauthUser.Username u2 →
  OauthUser.ID u1 ≠ OauthUser.ID u2 →
  let m2 := (CreateUser now2 (CreateUser now1 m u1).1 u2).1 in
  GetUser m2 (OauthUser.Username u1)
  = (Some (OauthUser.with_CreatedAt u2 now2), None)
  ∧ GetUserByID m2 (OauthUser.ID u1)
    = (Some (OauthUser.with_CreatedAt u1 now1), None).
Proof.
  intros Hname Hid m2. subst m2. unfold CreateUser, GetUser, GetUserByID. cbn.
  rewrite Hname, lookup_insert_eq.
  rewrite lookup_insert_ne by done. by rewrite lookup_insert_eq.
Qed.

Lemma memory_create_user_keeps_replaced_id_witness :
  let u1 := OauthUser.mk "1" "alice" (sql.some "hash1") 0 in
  let u2 := OauthUser.mk "2" "alice" (sql.some "hash2") 0 in
  let m2 := (CreateUser 20 (CreateUser 10 NewMemoryStorage u1).1 u2).1 in
  OauthUser.Username u1 = OauthUser.Username u2
  ∧ OauthUser.ID u1 ≠ OauthUser.ID u2
  ∧ GetUser m2 "alice" = (Some (OauthUser.with_CreatedAt u2 20), None)
  ∧ GetUserByID m2 "1" = (Some (OauthUser.with_CreatedAt u1 10), None).
Proof.
  intros u1 u2 m2.
  assert (OauthUser.Username u1 = OauthUser.Username u2) as Hname by reflexivity.
  assert (OauthUser.ID u1 ≠ OauthUser.ID u2) as Hid by discriminate.
  split; [exact Hname|]. split; [exact Hid|].
  exact (memory_create_user_keeps_replaced_id 10 20 NewMemoryStorage u1 u2
           Hname Hid).
Defined.

(** X5: AuthenticateUser of the in-memory backend returns a user only
    after the hash comparison accepted the password: the result is the
    stored user exactly when the username is known, a password hash is
    stored and the comparison succeeds; an unknown username gives
    ErrUserNotFound, and a missing hash or a refused password gives
    ErrInvalidCredentials. *)
Theorem memory_authenticate_user_checks_password `{Bcrypt}
    (m : t) (username password : string) :
  (∀ user,
     AuthenticateUser m username password = (Some user, None)
     ↔ users m !! username = Some user
       ∧ sql.Valid (OauthUser.Password user) = true
       ∧ CompareHashAndPassword (sql.String_ (OauthUser.Password user)) password
         = None)
  ∧ (users m !! username = None →
     AuthenticateUser m username password = (None, Some ErrUserNotFound))
  ∧ (∀ user, users m !! username = Some user →
       sql.Valid (OauthUser.Password user) = false
       ∨ CompareHashAndPassword (sql.String_ (OauthUser.Password user)) password
         ≠ None →
       AuthenticateUser m username password = (None, Some ErrInvalidCredentials)).
Proof.
  rewrite memory_AuthenticateUser_spec. split_and!.
  - intros user. destruct (users m !! username) as [u|]; [|by split; [|intros [? _]]].
    destruct (sql.Valid (OauthUser.Password u)) eqn:Hv; cbn.
    + case_bool_decide as Hc.
      * split; [by intros [= <-]|]. by intros [[= <-] _].
      * split; [done|]. intros ([= <-] & _ & ?). done.
    + split; [done|]. intros ([= <-] & ? & _). congruence.
  - by intros ->.
  - intros user -> [Hv|Hc].
    + by rewrite Hv.
    + rewrite bool_decide_eq_false_2 by done. by rewrite andb_false_r.
Qed.

End memory_entities.

(** ** The in-memory backend: tokens and codes *)

Section memory_tokens.
Import MemoryStorage.

(** X6: a token or code that was stored is found again under its
    string, stamped with the time of the store, as long as the current
    time is not after its expiry; after that the lookup reports the
    expiry (ErrTokenExpired, ErrCodeExpired) and never "not found". *)
Theorem memory_store_then_get
    (storedAt now : Time) (m : t) (a : OauthAccessToken.t)
    (r : OauthRefreshToken.t) (c : OauthAuthorizationCode.t) :
  GetAccessToken now (StoreAccessToken storedAt m a).1 (OauthAccessToken.Token a)
  = (if decide (now ≤ OauthAccessToken.ExpiresAt a)
     then (Some (OauthAccessToken.with_CreatedAt a storedAt), None)
     else (None, Some ErrTokenExpired))
  ∧ GetRefreshToken now (StoreRefreshToken storedAt m r).1
      (OauthRefreshToken.Token r)
    = (if decide (now ≤ OauthRefreshToken.ExpiresAt r)
       then (Some (OauthRefreshToken.with_CreatedAt r storedAt), None)
       else (None, Some ErrTokenExpired))
  ∧ GetAuthorizationCode now (StoreAuthorizationCode storedAt m c).1
      (OauthAuthorizationCode.Code c)
    = (if decide (now ≤ OauthAuthorizationCode.ExpiresAt c)
       then (Some (OauthAuthorizationCode.with_CreatedAt c storedAt), None)
       else (None, Some ErrCodeExpired)).
Proof.
  unfold GetAccessToken, StoreAccessToken, GetRefreshToken, StoreRefreshToken,
    GetAuthorizationCode, StoreAuthorizationCode. cbn.
  rewrite !lookup_insert_eq. cbn. unfold time.Before.
  split_and!; case_decide as Hd.
  all: first [ by rewrite (proj2 (Z.ltb_ge _ _)) by lia
             | by rewrite (proj2 (Z.ltb_lt _ _)) by lia ].
Qed.

(** X7: after a delete, the lookup of the deleted key reports "not
    found" for clients, access tokens, refresh tokens and authorization
    codes alike, whatever the key held (also an expired entry), and the
    lookups of every other key answer as before. *)
Theorem memory_get_after_delete (now : Time) (m : t) (k k' : string) :
  GetClient (DeleteClient m k).1 k = (None, Some ErrClientNotFound)
  ∧ GetAccessToken now (DeleteAccessToken m k).1 k = (None, Some ErrTokenNotFound)
  ∧ GetRefreshToken now (DeleteRefreshToken m k).1 k
    = (None, Some ErrTokenNotFound)
  ∧ GetAuthorizationCode now (DeleteAuthorizationCode m k).1 k
    = (None, Some ErrCodeNotFound)
  ∧ (k' ≠ k →
     GetClient (DeleteClient m k).1 k' = GetClient m k'
     ∧ GetAccessToken now (DeleteAccessToken m k).1 k' = GetAccessToken now m k'
     ∧ GetRefreshToken now (DeleteRefreshToken m k).1 k'
       = GetRefreshToken now m k'
     ∧ GetAuthorizationCode now (DeleteAuthorizationCode m k).1 k'
       = GetAuthorizationCode now m k').
Proof.
  unfold GetClient, DeleteClient, GetAccessToken, DeleteAccessToken,
    GetRefreshToken, DeleteRefreshToken, GetAuthorizationCode,
    DeleteAuthorizationCode. cbn.
  rewrite !lookup_delete_eq. split_and!; try done.
  intros Hk. by rewrite !lookup_delete_ne.
Qed.

Lemma omap_length_le {A B} (f : A → option B) (l : list A) :
  (length (omap f l) ≤ length l)%nat.
Proof.
  induction l as [|x l IH]; [done|]. cbn. destruct (f x); cbn; lia.
Qed.

(** The tokens BatchGetTokens collects, one request after the other. *)
Lemma BatchGetTokens_loop_spec (now : Time) (m : t) (tokens : list string) :
  BatchGetTokens_loop now m tokens
  = omap (fun k => match accessTokens m !! k with
                   | Some a => if decide (now ≤ OauthAccessToken.ExpiresAt a)
                               then Some a else None
                   | None => None
                   end) tokens.
Proof.
  induction tokens as [|k tokens IH]; [done|]. cbn.
  rewrite memory_GetAccessToken_spec.
  destruct (accessTokens m !! k) as [a|]; [|done].
  case_decide; by rewrite IH.
Qed.

(** X8: BatchGetTokens never fails; it answers the requested token
    strings in their order, returning for each one the stored token when
    there is one that is not expired and skipping it otherwise, so a
    string asked twice is answered twice and the result is never longer
    than the request. *)
Theorem memory_batch_get_tokens (now : Time) (m : t) (tokens : list string) :
  (BatchGetTokens now m tokens).2 = None
  ∧ (BatchGetTokens now m tokens).1
    = omap (fun k => match GetAccessToken now m k with
                     | (Some a, None) => Some a
                     | _ => None
                     end) tokens
  ∧ (∀ a, a ∈ (BatchGetTokens now m tokens).1 ↔
          ∃ k, k ∈ tokens ∧ accessTokens m !! k = Some a
               ∧ now ≤ OauthAccessToken.ExpiresAt a)
  ∧ (length (BatchGetTokens now m tokens).1 ≤ length tokens)%nat.
Proof.
  unfold BatchGetTokens. cbn [fst snd]. split_and!.
  - done.
  - induction tokens as [|k tokens IH]; [done|]. cbn.
    destruct (GetAccessToken now m k) as [[a|] [e|]]; by rewrite ?IH.
  - intros a. rewrite BatchGetTokens_loop_spec, list_elem_of_omap.
    split.
    + intros (k & Hk & Hsome). exists k. split; [done|].
      destruct (accessTokens m !! k) as [a0|]; [|done].
      case_decide; [|done]. by injection Hsome as ->.
    + intros (k & Hk & Ha & Hnow). exists k. split; [done|].
      rewrite Ha. by rewrite decide_True.
  - rewrite BatchGetTokens_loop_spec. apply omap_length_le.
Qed.

Lemma BatchDeleteTokens_loop_spec (m : t) (tokens : list string) :
  BatchDeleteTokens_loop m tokens
  = set_accessTokens m
      (filter (fun kv => kv.1 ∉ tokens) (accessTokens m)).
Proof.
  revert m. induction tokens as [|k tokens IH]; intros m.
  - cbn. destruct m; unfold set_accessTokens; cbn. f_equal. symmetry.
    apply map_filter_id. intros ???. apply not_elem_of_nil.
  - cbn [BatchDeleteTokens_loop]. rewrite IH.
    destruct m; unfold DeleteAccessToken, set_accessTokens; cbn. f_equal.
    apply map_eq. intros i.
    rewrite !map_lookup_filter.
    destruct (decide (i = k)) as [->|Hne].
    + rewrite lookup_delete_eq. cbn.
      destruct (accessTokens0 !! k); [|done]. cbn.
      rewrite option_guard_False; [done|]. cbn. intros Hn. apply Hn. left.
    + rewrite lookup_delete_ne by done.
      destruct (accessTokens0 !! i) as [a|]; [|done]. cbn.
      destruct (decide (i ∈ tokens)) as [Hin|Hnin].
      * rewrite !option_guard_False; [done| |]; cbn; intros Hn; apply Hn;
          [by right|done].
      * rewrite !option_guard_True; [done| |]; cbn; [|done].
        intros [?|?]%elem_of_cons; done.
Qed.

(** X9: BatchDeleteTokens never fails; afterwards none of the listed
    token strings is found, every other access token is found as before,
    and nothing but access tokens was touched. *)
Theorem memory_batch_delete_tokens (now : Time) (m : t) (tokens : list string) :
  let m' := (BatchDeleteTokens m tokens).1 in
  (BatchDeleteTokens m tokens).2 = None
  ∧ (∀ k, k ∈ tokens → GetAccessToken now m' k = (None, Some ErrTokenNotFound))
  ∧ (∀ k, k ∉ tokens → GetAccessToken now m' k = GetAccessToken now m k)
  ∧ clients m' = clients m ∧ users m' = users m ∧ usersByID m' = usersByID m
  ∧ refreshTokens m' = refreshTokens m ∧ authCodes m' = authCodes m
  ∧ scopes m' = scopes m.
Proof.
  intros m'. subst m'. unfold BatchDeleteTokens. cbn [fst snd].
  rewrite BatchDeleteTokens_loop_spec. unfold GetAccessToken. cbn.
  split_and!; try done.
  - intros k Hk. rewrite map_lookup_filter.
    destruct (accessTokens m !! k); [|done]. cbn.
    by rewrite option_guard_False by (cbn; tauto).
  - intros k Hk. rewrite map_lookup_filter.
    destruct (accessTokens m !! k); [|done]. cbn.
    by rewrite option_guard_True.
Qed.

Lemma filter_twice {V} (P : string * V → Prop) `{∀ x, Decision (P x)}
    (m : gmap string V) :
  filter P (filter P m) = filter P m.
Proof.
  apply map_eq. intros i. rewrite !map_lookup_filter.
  destruct (m !! i) as [x|]; cbn; [|done].
  case_guard; cbn; [by rewrite option_guard_True|done].
Qed.

(** X10: once CleanupExpiredTokens has run, no lookup made at the same
    instant reports an expired token: an access or refresh token that
    was expired is now "not found", and one that was not is returned as
    before.  Running the cleanup again at that instant changes nothing,
    and clients, users and scopes are never touched. *)
Theorem memory_cleanup_removes_expired_tokens (now : Time) (m : t) (k : string) :
  let m' := (CleanupExpiredTokens now m).1 in
  GetAccessToken now m' k
  = (if decide (GetAccessToken now m k = (None, Some ErrTokenExpired))
     then (None, Some ErrTokenNotFound) else GetAccessToken now m k)
  ∧ GetRefreshToken now m' k
    = (if decide (GetRefreshToken now m k = (None, Some ErrTokenExpired))
       then (None, Some ErrTokenNotFound) else GetRefreshToken now m k)
  ∧ CleanupExpiredTokens now m' = (m', None)
  ∧ clients m' = clients m ∧ users m' = users m ∧ usersByID m' = usersByID m
  ∧ scopes m' = scopes m.
Proof.
  intros m'. split_and!; try done.
  - unfold GetAccessToken. subst m'. rewrite memory_cleanup_access_tokens.
    unfold time.Before.
    destruct (accessTokens m !! k) as [a|]; [|by rewrite decide_False].
    case_decide as Hd.
    + rewrite (proj2 (Z.ltb_lt _ _)) by done. by rewrite decide_True.
    + rewrite (proj2 (Z.ltb_ge _ _)) by lia. by rewrite decide_False.
  - unfold GetRefreshToken. subst m'. rewrite memory_cleanup_refresh_tokens.
    unfold time.Before.
    destruct (refreshTokens m !! k) as [a|]; [|by rewrite decide_False].
    case_decide as Hd.
    + rewrite (proj2 (Z.ltb_lt _ _)) by done. by rewrite decide_True.
    + rewrite (proj2 (Z.ltb_ge _ _)) by lia. by rewrite decide_False.
  - subst m'. destruct m.
    unfold CleanupExpiredTokens, set_accessTokens, set_refreshTokens. cbn.
    by rewrite !filter_twice.
Qed.

End memory_tokens.

(** ** The in-memory cache: hits, bulk operations and statistics *)

Section memory_cache.
Import MemoryCache.

(** X11: Get of the in-memory cache reports a hit exactly when the key
    has an entry and the current time is not after the entry's expiry
    (the entry is still served at its expiry instant); in every other
    case, absent or expired alike, it returns the one error "key not
    found or expired". *)
Theorem memory_cache_get_hit_iff
    (now : Time) (m : t) (key : string) (dest : CacheValue) :
  ((Get now m key dest).2 = None
   ↔ ∃ item, data m !! key = Some item ∧ now ≤ ExpiresAt item)
  ∧ ((Get now m key dest).2 = None
     ∨ (Get now m key dest).2 = Some (Errorf "key not found or expired")).
Proof.
  unfold Get. destruct (data m !! key) as [item|].
  - destruct (time.After now (ExpiresAt item)) eqn:Ha; cbn.
    + apply After_spec in Ha. split; [|by right].
      split; [done|]. intros (i & [= <-] & ?). lia.
    + apply After_false in Ha. split; [|by left].
      split; [|done]. intros _. by exists item.
  - cbn. split; [|by right]. split; [done|]. by intros (i & ? & _).
Qed.

Lemma GetMulti_range_lookup (now : Time) (m : t) (keys : list string)
    (result : gmap string CacheValue) (k : string) :
  GetMulti_range now m keys result !! k
  = match data m !! k with
    | Some item =>
        if decide (k ∈ keys ∧ now ≤ ExpiresAt item) then Some (Value item)
        else result !! k
    | None => result !! k
    end.
Proof.
  revert result. induction keys as [|key keys IH]; intros result.
  - cbn. destruct (data m !! k); [|done].
    rewrite decide_False; [done|]. intros [?%not_elem_of_nil _]. done.
  - cbn [GetMulti_range].
    destruct (data m !! key) as [item0|] eqn:Hkey.
    + destruct (time.After now (ExpiresAt item0)) eqn:Ha; cbn [negb].
      * apply After_spec in Ha. rewrite IH.
        destruct (data m !! k) as [item|] eqn:Hk; [|done].
        destruct (decide (k ∈ keys ∧ now ≤ ExpiresAt item)) as [[??]|Hn].
        -- rewrite decide_True; [done|]. split; [by right|done].
        -- rewrite decide_False; [done|].
           intros [[->|?]%elem_of_cons ?]; [|tauto].
           rewrite Hkey in Hk. injection Hk as ->. lia.
      * apply After_false in Ha. rewrite IH.
        destruct (data m !! k) as [item|] eqn:Hk.
        -- destruct (decide (k ∈ keys ∧ now ≤ ExpiresAt item)) as [[??]|Hn].
           ++ rewrite decide_True; [done|]. split; [by right|done].
           ++ destruct (decide (k = key)) as [->|Hne].
              ** rewrite lookup_insert_eq. rewrite Hkey in Hk.
                 injection Hk as ->.
                 rewrite decide_True; [done|]. split; [by left|done].
              ** rewrite lookup_insert_ne by done.
                 rewrite decide_False; [done|].
                 intros [[?|?]%elem_of_cons ?]; tauto.
        -- rewrite lookup_insert_ne; [done|]. intros ->. congruence.
    + rewrite IH. destruct (data m !! k) as [item|] eqn:Hk; [|done].
      destruct (decide (k ∈ keys ∧ now ≤ ExpiresAt item)) as [[??]|Hn].
      * rewrite decide_True; [done|]. split; [by right|done].
      * rewrite decide_False; [done|].
        intros [[->|?]%elem_of_cons ?]; [congruence|tauto].
Qed.

(** X12: GetMulti never fails and returns, for exactly those requested
    keys that have an entry not yet past its expiry, the value that was
    stored.  So a value put with Set is read back through GetMulti until
    it expires, which Get of the same cache never does. *)
Theorem memory_cache_get_multi_returns_values
    (now : Time) (m : t) (keys : list string) (k : string) (v : CacheValue) :
  (GetMulti now m keys).2 = None
  ∧ ((GetMulti now m keys).1 !! k = Some v
     ↔ k ∈ keys
       ∧ ∃ item, data m !! k = Some item ∧ Value item = v
                 ∧ now ≤ ExpiresAt item)
  ∧ (∀ (setAt : Time) (ttl : Duration),
       now ≤ time.Add setAt ttl →
       (GetMulti now (Set_ setAt m k v ttl).1 [k]).1 !! k = Some v).
Proof.
  unfold GetMulti. cbn [fst snd]. split_and!; [done| |].
  - rewrite GetMulti_range_lookup, lookup_empty.
    destruct (data m !! k) as [item|].
    + case_decide as Hd.
      * destruct Hd. split.
        -- intros [= <-]. split; [done|]. by exists item.
        -- by intros (_ & i & [= <-] & <- & _).
      * split; [done|]. intros (? & i & [= <-] & _ & ?). tauto.
    + split; [done|]. by intros (_ & i & ? & _).
  - intros setAt ttl Hlive. rewrite GetMulti_range_lookup. cbn.
    rewrite lookup_insert_eq. cbn. rewrite decide_True; [done|].
    split; [apply list_elem_of_here|done].
Qed.

Lemma SetMulti_range_lookup (now : Time) (m : t)
    (items : list (string * CacheValue)) (ttl : Duration) (k : string) :
  NoDup items.*1 →
  data (SetMulti_range now m items ttl) !! k
  = match (list_to_map items : gmap string CacheValue) !! k with
    | Some v => Some (mkItem v (time.Add now ttl))
    | None => data m !! k
    end.
Proof.
  revert m. induction items as [|[k0 v0] items IH]; intros m Hnd.
  - done.
  - cbn in Hnd. apply NoDup_cons in Hnd as [Hk0 Hnd].
    cbn [SetMulti_range]. rewrite IH by done. cbn.
    destruct (decide (k = k0)) as [->|Hne].
    + rewrite lookup_insert_eq.
      rewrite (not_elem_of_list_to_map_1 _ k0) by done.
      by rewrite lookup_insert_eq.
    + rewrite !lookup_insert_ne by done. done.
Qed.

(** X13: SetMulti never fails and its result does not depend on the
    order in which the loop meets the entries of the map: whatever the
    order, every key of the map ends up with its value and the expiry
    now + ttl, and every other key keeps its entry. *)
Theorem memory_cache_set_multi_any_order
    (now : Time) (m : t) (items : gmap string CacheValue) (ttl : Duration)
    (order : list (string * CacheValue)) (k : string) :
  order ≡ₚ map_to_list items →
  (SetMulti now m items ttl).2 = None
  ∧ SetMulti_range now m order ttl = (SetMulti now m items ttl).1
  ∧ data (SetMulti now m items ttl).1 !! k
    = match items !! k with
      | Some v => Some (mkItem v (time.Add now ttl))
      | None => data m !! k
      end.
Proof.
  intros Hperm.
  assert (NoDup (map_to_list items).*1) as Hnd by apply NoDup_fst_map_to_list.
  assert (NoDup order.*1) as Hnd' by by rewrite Hperm.
  assert (∀ l i, NoDup l.*1 → l ≡ₚ map_to_list items →
            data (SetMulti_range now m l ttl) !! i
            = match items !! i with
              | Some v => Some (mkItem v (time.Add now ttl))
              | None => data m !! i
              end) as Hlookup.
  { intros l i Hl Hp. rewrite SetMulti_range_lookup by done.
    rewrite (list_to_map_proper l (map_to_list items)) by done.
    by rewrite list_to_map_to_list. }
  unfold SetMulti. cbn [fst snd]. split_and!; [done| |by apply Hlookup].
  destruct (SetMulti_range now m order ttl) as [d1] eqn:H1,
    (SetMulti_range now m (map_to_list items) ttl) as [d2] eqn:H2.
  f_equal. apply map_eq. intros i.
  change d1 with (data (mk d1)). change d2 with (data (mk d2)).
  rewrite <- H1, <- H2. by rewrite !Hlookup.
Qed.

Lemma memory_cache_set_multi_any_order_witness :
  let v1 := VClient (OauthClient.mk "c1" "s1" sql.null 0) in
  let v2 := VClient (OauthClient.mk "c2" "s2" sql.null 0) in
  let items : gmap string CacheValue :=
    <["client:c1" := v1]> (<["client:c2" := v2]> ∅) in
  let order := [("client:c2", v2); ("client:c1", v1)] in
  SetMulti_range 0 NewMemoryCache order time.Minute
  = (SetMulti 0 NewMemoryCache items time.Minute).1
  ∧ data (SetMulti 0 NewMemoryCache items time.Minute).1 !! "client:c2"
    = Some (mkItem v2 time.Minute).
Proof.
  intros v1 v2 items order.
  assert (order ≡ₚ map_to_list items) as Hperm.
  { apply NoDup_Permutation.
    - subst order. repeat constructor; set_solver.
    - apply NoDup_map_to_list.
    - intros [i x]. rewrite elem_of_map_to_list. subst order items.
      rewrite !elem_of_cons, lookup_insert_Some, lookup_insert_Some,
        lookup_empty, elem_of_nil.
      split.
      + intros [[= -> ->]|[[= -> ->]|[]]]; [right|left]; split; try done.
        left. done.
      + intros [[<- <-]|[? [[<- <-]|[? ?]]]]; [by right; left|by left|done]. }
  destruct (memory_cache_set_multi_any_order 0 NewMemoryCache items
              time.Minute order "client:c2" Hperm) as (_ & Horder & Hlookup).
  split; [exact Horder|exact Hlookup].
Defined.

Lemma DeleteMulti_range_lookup (m : t) (keys : list string) (k : string) :
  data (DeleteMulti_range m keys) !! k
  = if decide (k ∈ keys) then None else data m !! k.
Proof.
  revert m. induction keys as [|key keys IH]; intros m.
  - cbn. by rewrite decide_False by apply not_elem_of_nil.
  - cbn [DeleteMulti_range]. rewrite IH. cbn.
    destruct (decide (k ∈ keys)) as [Hin|Hnin].
    + by rewrite decide_True by by right.
    + destruct (decide (k = key)) as [->|Hne].
      * rewrite lookup_delete_eq. by rewrite decide_True by by left.
      * rewrite lookup_delete_ne by done.
        rewrite decide_False; [done|]. intros [?|?]%elem_of_cons; done.
Qed.

(** X14: DeleteMulti and FlushAll never fail.  After DeleteMulti every
    listed key misses and every other key is answered as before; after
    FlushAll every key misses and the cache counts no key. *)
Theorem memory_cache_delete_multi_and_flush
    (now : Time) (m : t) (keys : list string) (k : string) (dest : CacheValue) :
  (DeleteMulti m keys).2 = None
  ∧ (k ∈ keys →
     Get now (DeleteMulti m keys).1 k dest
     = (dest, Some (Errorf "key not found or expired")))
  ∧ (k ∉ keys → Get now (DeleteMulti m keys).1 k dest = Get now m k dest)
  ∧ (FlushAll m).2 = None
  ∧ Get now (FlushAll m).1 k dest
    = (dest, Some (Errorf "key not found or expired"))
  ∧ Keys <$> (Stats (FlushAll m).1).1 = Some 0.
Proof.
  unfold DeleteMulti, Get. cbn [fst snd]. split_and!; try done.
  - intros Hk. rewrite DeleteMulti_range_lookup. by rewrite decide_True.
  - intros Hk. rewrite DeleteMulti_range_lookup. by rewrite decide_False.
Qed.

(** X15: Stats never fails, reports no hits and no misses, and counts
    every entry of the cache, expired or not: Set on a key that has no
    entry raises the count by one whatever the TTL, also a negative one;
    Set on a key that has an entry leaves the count; Delete of a key that
    has an entry lowers it by one. *)
Theorem memory_cache_stats_count_entries
    (now : Time) (m : t) (key : string) (v : CacheValue) (ttl : Duration) :
  (Stats m).2 = None
  ∧ (∃ st, (Stats m).1 = Some st ∧ Hits st = 0 ∧ Misses st = 0
           ∧ Keys st = Z.of_nat (size (data m)))
  ∧ (data m !! key = None →
     Keys <$> (Stats (Set_ now m key v ttl).1).1
     = (fun n => n + 1) <$> (Keys <$> (Stats m).1))
  ∧ (is_Some (data m !! key) →
     Keys <$> (Stats (Set_ now m key v ttl).1).1 = Keys <$> (Stats m).1
     ∧ Keys <$> (Stats (Delete m key).1).1
       = (fun n => n - 1) <$> (Keys <$> (Stats m).1)).
Proof.
  unfold Stats, Set_, Delete. cbn. split_and!; [done|by eexists| |].
  - intros Hnone. rewrite map_size_insert_None by done. f_equal. lia.
  - intros [item Hsome]. split.
    + by rewrite map_size_insert_Some by by exists item.
    + rewrite map_size_delete_Some by by exists item. f_equal.
      assert (size (data m) ≠ 0%nat).
      { intros Hz. apply map_size_empty_inv in Hz. rewrite Hz in Hsome.
        by rewrite lookup_empty in Hsome. }
      lia.
Qed.

End memory_cache.

(** ** The factory and the SDK *)

Section sdk.
Import oauth2server.

Lemma CreateStorage_cases (sc : factory.StorageConfig) :
  let ok := bool_decide (factory.Type_ (factory.Primary sc) = "memory")
            || bool_decide (factory.Type_ (factory.Primary sc) = "") in
  if ok
  then factory.CreateStorage sc = (Some MemoryStorage.NewMemoryStorage, None)
  else (factory.CreateStorage sc).1 = None
       ∧ is_Some (factory.CreateStorage sc).2.
Proof.
  unfold factory.CreateStorage. cbn zeta.
  destruct (bool_decide _ || bool_decide _); [done|].
  repeat case_bool_decide; done.
Qed.

Lemma CreateCache_cases (cc : storage.CacheConfig) :
  if bool_decide (storage.Provider cc = "memory")
  then factory.CreateCache cc = (Some MemoryCache.NewMemoryCache, None)
  else (factory.CreateCache cc).1 = None
       ∧ is_Some (factory.CreateCache cc).2.
Proof.
  unfold factory.CreateCache.
  case_bool_decide as Hm.
  - by rewrite Hm.
  - case_bool_decide; done.
Qed.

(** X16: the factory creates a storage backend only for the types
    "memory" and "" (the in-memory backend, empty), and a cache only for
    the provider "memory" (the in-memory cache, empty); for every other
    type or provider, "postgres" and "redis" included, it returns an
    error and no backend.  CreateMetrics fails for "datadog" only. *)
Theorem factory_creates_only_memory_backends
    (sc : factory.StorageConfig) (cc : storage.CacheConfig)
    (mc : factory.MonitoringConfig) :
  (if decide (factory.Type_ (factory.Primary sc) = "memory"
              ∨ factory.Type_ (factory.Primary sc) = "")
   then factory.CreateStorage sc = (Some MemoryStorage.NewMemoryStorage, None)
   else (factory.CreateStorage sc).1 = None
        ∧ is_Some (factory.CreateStorage sc).2)
  ∧ (if decide (storage.Provider cc = "memory")
     then factory.CreateCache cc = (Some MemoryCache.NewMemoryCache, None)
     else (factory.CreateCache cc).1 = None
          ∧ is_Some (factory.CreateCache cc).2)
  ∧ (if decide (factory.Provider mc = "datadog")
     then (factory.CreateMetrics mc).1 = None
          ∧ is_Some (factory.CreateMetrics mc).2
     else is_Some (factory.CreateMetrics mc).1
          ∧ (factory.CreateMetrics mc).2 = None).
Proof.
  split_and!.
  - pose proof (CreateStorage_cases sc) as Hs. cbn zeta in Hs.
    destruct (decide (_ ∨ _)) as [Hd|Hd].
    + rewrite (proj2 (orb_true_iff _ _)) in Hs; [exact Hs|].
      rewrite !bool_decide_eq_true. tauto.
    + rewrite (proj2 (orb_false_iff _ _)) in Hs; [exact Hs|].
      rewrite !bool_decide_eq_false. tauto.
  - pose proof (CreateCache_cases cc) as Hc.
    destruct (decide (storage.Provider cc = "memory")) as [Hd|Hd].
    + rewrite bool_decide_eq_true_2 in Hc by done. exact Hc.
    + rewrite bool_decide_eq_false_2 in Hc by done. exact Hc.
  - unfold factory.CreateMetrics. case_decide as Hd.
    + by rewrite Hd.
    + rewrite (bool_decide_eq_false_2 (_ = "datadog")) by done.
      case_bool_decide; done.
Qed.

Lemma Build_spec (b : Builder) :
  Build b
  = match factory.Cache (Storage (config b)) with
    | Some cc =>
        match factory.CreateCache cc with
        | (_, Some err) =>
            (None, Some (Wrapf "failed to create cache provider" err))
        | (cache, None) =>
            match factory.CreateStorage (Storage (config b)) with
            | (_, Some err) =>
                (None, Some (Wrapf "failed to create storage backend" err))
            | (backend, None) => (Some (mkSDK backend cache (config b) None), None)
            end
        end
    | None =>
        match factory.CreateStorage (Storage (config b)) with
        | (_, Some err) =>
            (None, Some (Wrapf "failed to create storage backend" err))
        | (backend, None) => (Some (mkSDK backend None (config b) None), None)
        end
    end.
Proof.
  unfold Build, createRateLimiter.
  destruct (factory.Cache (Storage (config b))) as [cc|]; [|done].
  by destruct (factory.CreateCache cc) as [cache [err|]].
Qed.

(** X17: Build returns an SDK exactly when the storage type is "memory"
    or "" and the cache is absent or of the provider "memory"; the SDK
    then holds a fresh in-memory backend, a fresh in-memory cache when
    one was asked for, and no rate limiter.  A builder on which
    WithPostgreSQL, WithRedisCache or WithRedisCluster was called last
    never builds; the cache is created first, so its error comes
    first. *)
Theorem build_succeeds_only_in_memory (b : Builder) :
  let st := Storage (config b) in
  let storage_ok :=
    bool_decide (factory.Type_ (factory.Primary st) = "memory")
    || bool_decide (factory.Type_ (factory.Primary st) = "") in
  let cache_ok :=
    match factory.Cache st with
    | Some cc => bool_decide (storage.Provider cc = "memory")
    | None => true
    end in
  (if storage_ok && cache_ok
   then Build b
        = (Some (mkSDK (Some MemoryStorage.NewMemoryStorage)
                   (match factory.Cache st with
                    | Some _ => Some MemoryCache.NewMemoryCache
                    | None => None
                    end)
                   (config b) None), None)
   else (Build b).1 = None ∧ is_Some (Build b).2)
  ∧ (∀ conn, (Build (WithPostgreSQL b conn)).1 = None
             ∧ is_Some (Build (WithPostgreSQL b conn)).2)
  ∧ (∀ conn, Build (WithRedisCache b conn)
             = (None, Some (Wrapf "failed to create cache provider"
                              (Errorf "redis cache implementation needed"))))
  ∧ (∀ addrs, Build (WithRedisCluster b addrs)
              = (None, Some (Wrapf "failed to create cache provider"
                               (Errorf "redis cache implementation needed")))).
Proof.
  intros st storage_ok cache_ok. split_and!.
  - rewrite Build_spec. fold st. subst storage_ok cache_ok.
    pose proof (CreateStorage_cases st) as Hs. cbn zeta in Hs.
    destruct (bool_decide (factory.Type_ (factory.Primary st) = "memory")
              || bool_decide (factory.Type_ (factory.Primary st) = ""));
      cbn [andb].
    + rewrite Hs. destruct (factory.Cache st) as [cc|]; [|done].
      pose proof (CreateCache_cases cc) as Hc.
      destruct (bool_decide (storage.Provider cc = "memory")).
      * by rewrite Hc.
      * destruct (factory.CreateCache cc) as [cache [err|]];
          [by split; [|eexists]|]. destruct Hc as [_ [? [=]]].
    + destruct Hs as [Hn [e He]].
      destruct (factory.CreateStorage st) as [backend [err|]]; [|done].
      destruct (factory.Cache st) as [cc|]; [|by split; [|eexists]].
      destruct (factory.CreateCache cc) as [cache [err'|]];
        by split; [|eexists].
  - intros conn. rewrite Build_spec. cbn.
    destruct (factory.Cache (Storage (config b))) as [cc|]; cbn;
      [|by split; [|eexists]].
    destruct (factory.CreateCache cc) as [cache [err|]]; cbn;
      by split; [|eexists].
  - intros conn. by rewrite Build_spec.
  - intros addrs. by rewrite Build_spec.
Qed.

(** X18: GrantPasswordToken never returns a token response.  On an SDK
    that Build made, an unknown client gives the error "failed to get
    client" wrapping ErrClientNotFound; for a known client the secret
    presented is not looked at, a login the backend refuses gives the
    error "failed to authenticate user" wrapping the backend's error,
    and a login the backend accepts ends in a nil dereference, the token
    generator returning no tokens. *)
Theorem grant_password_token_never_grants `{Bcrypt}
    (now : Time) (s : SDK)
    (clientID clientSecret username password scope : string) :
  (∀ response err,
     GrantPasswordToken now s clientID clientSecret username password scope
     = Done (Some response, err) → False)
  ∧ (∀ backend, storage s = Some backend →
       GrantPasswordToken now s clientID clientSecret username password scope
       = match MemoryStorage.clients backend !! clientID with
         | None =>
             Done (None, Some (Wrapf "failed to get client" ErrClientNotFound))
         | Some _ =>
             match MemoryStorage.AuthenticateUser backend username password with
             | (_, Some err) =>
                 Done (None, Some (Wrapf "failed to authenticate user" err))
             | (None, None) =>
                 Done (None, Some (Errorf "invalid user credentials"))
             | (Some _, None) => NilDereference
             end
         end)
  ∧ (storage s = None →
     GrantPasswordToken now s clientID clientSecret username password scope
     = NilDereference).
Proof.
  unfold GrantPasswordToken, MemoryStorage.GetClient, verifyClientSecret,
    generateTokens.
  split_and!.
  - intros response err.
    destruct (storage s) as [backend|]; [|done].
    destruct (MemoryStorage.clients backend !! clientID); [|done]. cbn.
    by destruct (MemoryStorage.AuthenticateUser backend username password)
      as [[user|] [e|]].
  - intros backend ->.
    destruct (MemoryStorage.clients backend !! clientID); [|done]. cbn.
    by destruct (MemoryStorage.AuthenticateUser backend username password)
      as [[user|] [e|]].
  - by intros ->.
Qed.

End sdk.

(** ** The PostgreSQL backend: tokens, cache hits and cleanup *)

Section postgres_tokens.
Context {C : Type} `{CacheProvider C}.
Import PostgreSQLStorage.

Lemma GetAccessToken_from_database (now : Time) (s : t C) (k : string)
    (a : OauthAccessToken.t) :
  (cache_try_get now (cache s) ("access_token:" ++ k)
     (VAccessToken OauthAccessToken.zero)).2 = None →
  (gorm.send (db s)).2 = None →
  gorm.oauth_access_tokens (db s) !! k = Some a →
  (GetAccessToken now s k).1.2 = Some a ∧ (GetAccessToken now s k).2 = None.
Proof.
  intros Hmiss Hsend Hrow. unfold GetAccessToken, gorm.First.
  destruct (cache_try_get _ _ _ _) as [c1 hit]; cbn in Hmiss; subst hit.
  destruct (gorm.send (db s)) as [db1 f] eqn:Hs; cbn in Hsend; subst f.
  apply send_inv in Hs as [fs ->]. cbn. by rewrite Hrow.
Qed.

(** X19: GetAccessToken of the PostgreSQL backend does not look at the
    expiry: when the cache misses and the database answers, the stored
    token is returned with a nil error whether it is expired or not (the
    in-memory backend answers ErrTokenExpired for an expired one). *)
Theorem postgres_get_access_token_ignores_expiry
    (now : Time) (s : t C) (k : string) (a : OauthAccessToken.t) :
  (cache_try_get now (cache s) ("access_token:" ++ k)
     (VAccessToken OauthAccessToken.zero)).2 = None →
  (gorm.send (db s)).2 = None →
  gorm.oauth_access_tokens (db s) !! k = Some a →
  (GetAccessToken now s k).1.2 = Some a ∧ (GetAccessToken now s k).2 = None.
Proof. apply GetAccessToken_from_database. Qed.

(** While the database answers, the cleanup of the PostgreSQL backend
    either completes or stops at the first delete that fails; the rows
    deleted before are not restored. *)
Lemma DeleteWhere_answered {V} (T : gorm.Table V) (d : gorm.DB)
    (cond : V → bool) (fs : FaultScript) :
  gorm.faults d = None :: fs →
  gorm.DeleteWhere T d cond
  = (gorm.set_rows T (gorm.set_faults d fs)
       (filter (fun kv => cond kv.2 = false) (gorm.rows T (gorm.set_faults d fs))),
     None).
Proof.
  intros Hd. unfold gorm.DeleteWhere, gorm.send. by rewrite Hd.
Qed.

End postgres_tokens.

Lemma postgres_get_access_token_ignores_expiry_witness :
  let a :=
    OauthAccessToken.mk "t1" (sql.some "c1") sql.null None None "read" 10 0 in
  let s : PostgreSQLStorage.t MemoryCache.t :=
    PostgreSQLStorage.mk
      (gorm.set_rows gorm.AccessTokens gorm.empty {["t1" := a]}) None in
  OauthAccessToken.ExpiresAt a < 100
  ∧ (PostgreSQLStorage.GetAccessToken 100 s "t1").1.2 = Some a
  ∧ (PostgreSQLStorage.GetAccessToken 100 s "t1").2 = None.
Proof.
  intros a s. split; [by vm_compute|].
  apply (postgres_get_access_token_ignores_expiry 100 s "t1" a); reflexivity.
Defined.

Section postgres_memory_cache.
Import PostgreSQLStorage.

(** X20: with the in-memory cache, a client that GetClient has just read
    from the database and put in the cache is not what the next
    GetClient returns: until the entry expires, five minutes later, the
    cache reports a hit without filling in the destination, and
    GetClient returns the zero client with a nil error. *)
Theorem postgres_memory_cache_hit_returns_zero_client
    (now later : Time) (s : t MemoryCache.t) (k : string)
    (client : OauthClient.t) :
  is_Some (cache s) →
  (cache_try_get now (cache s) ("client:" ++ k) (VClient OauthClient.zero)).2
  = None →
  (gorm.send (db s)).2 = None →
  gorm.oauth_clients (db s) !! k = Some client →
  later ≤ now + 5 * time.Minute →
  (GetClient now s k).1.2 = Some client
  ∧ (GetClient now s k).2 = None
  ∧ GetClient later (GetClient now s k).1.1 k
    = ((GetClient now s k).1.1, Some OauthClient.zero, None).
Proof.
  intros [m Hm] Hmiss Hsend Hrow Hlater.
  unfold GetClient at 1 2 4 5. unfold gorm.First.
  destruct s as [d c]. cbn in Hm. subst c. cbn [db cache] in *.
  cbn in Hmiss. cbn.
  destruct (MemoryCache.Get now m ("client:" +:+ k) (VClient OauthClient.zero))
    as [dest [e|]]; [|done]. cbn.
  destruct (gorm.send d) as [db1 f] eqn:Hs; cbn in Hsend; subst f.
  apply send_inv in Hs as [fs ->]. cbn. rewrite Hrow. cbn.
  split_and!; [done|done|].
  unfold GetClient. cbn. unfold MemoryCache.Get. cbn.
  rewrite lookup_insert_eq. cbn.
  by rewrite (proj2 (After_false later (time.Add now (5 * time.Minute)))).
Qed.

Lemma postgres_memory_cache_hit_returns_zero_client_witness :
  let client := OauthClient.mk "c1" "s1" sql.null 0 in
  let s : t MemoryCache.t :=
    mk (gorm.set_rows gorm.Clients gorm.empty {["c1" := client]})
       (Some MemoryCache.NewMemoryCache) in
  (GetClient 0 s "c1").1.2 = Some client
  ∧ (GetClient time.Second (GetClient 0 s "c1").1.1 "c1").1.2
    = Some OauthClient.zero.
Proof.
  intros client s.
  assert (time.Second ≤ 0 + 5 * time.Minute) as Hlater by (by vm_compute).
  destruct (postgres_memory_cache_hit_returns_zero_client 0 time.Second s "c1"
              client (ex_intro _ _ eq_refl) eq_refl eq_refl eq_refl Hlater)
    as (Hfirst & _ & Hsecond).
  split; [exact Hfirst|]. by rewrite Hsecond.
Defined.

(** X21: with the in-memory cache, an access token stored with
    StoreAccessToken while it is not expired is read back by
    GetAccessToken, until its expiry, as the zero access token: the
    store put it in the cache, and the cache's hit leaves the
    destination empty. *)
Theorem postgres_memory_cache_hit_returns_zero_token
    (now later : Time) (s : t MemoryCache.t) (token : OauthAccessToken.t) :
  is_Some (cache s) →
  (gorm.send (db s)).2 = None →
  gorm.oauth_access_tokens (db s) !! OauthAccessToken.Token token = None →
  now ≤ later →
  later ≤ OauthAccessToken.ExpiresAt token →
  OauthAccessToken.ExpiresAt token - now ≤ int64_max →
  let s1 := (StoreAccessToken now s token).1 in
  gorm.oauth_access_tokens (db s1) !! OauthAccessToken.Token token = Some token
  ∧ GetAccessToken later s1 (OauthAccessToken.Token token)
    = (s1, Some OauthAccessToken.zero, None).
Proof.
  intros [m Hm] Hsend Hrow Hnow Hlater Hfit s1. subst s1.
  unfold StoreAccessToken, gorm.Create.
  destruct s as [d c]. cbn in Hm. subst c. cbn [db cache] in *.
  destruct (gorm.send d) as [db1 f] eqn:Hs; cbn in Hsend; subst f.
  apply send_inv in Hs as [fs ->]. cbn. rewrite Hrow. cbn.
  split; [apply lookup_insert_eq|].
  unfold GetAccessToken. cbn. unfold MemoryCache.Get. cbn.
  rewrite lookup_insert_eq. cbn.
  rewrite (proj2 (After_false later _)); [done|].
  unfold time.Add. rewrite Until_exact; [lia|].
  unfold int64_min. lia.
Qed.

Lemma postgres_memory_cache_hit_returns_zero_token_witness :
  let client := OauthClient.mk "c1" "s1" sql.null 0 in
  let token :=
    OauthAccessToken.mk "t1" (sql.some "c1") sql.null (Some client) None
      "read" time.Hour 0 in
  let s : t MemoryCache.t := mk gorm.empty (Some MemoryCache.NewMemoryCache) in
  (GetAccessToken time.Minute (StoreAccessToken 0 s token).1 "t1").1.2
  = Some OauthAccessToken.zero.
Proof.
  intros client token s.
  assert (0 ≤ time.Minute) as H1 by (by vm_compute).
  assert (time.Minute ≤ OauthAccessToken.ExpiresAt token) as H2
    by (by vm_compute).
  assert (OauthAccessToken.ExpiresAt token - 0 ≤ int64_max) as H3
    by (by vm_compute).
  destruct (postgres_memory_cache_hit_returns_zero_token 0 time.Minute s token
              (ex_intro _ _ eq_refl) eq_refl eq_refl H1 H2 H3) as [_ Hget].
  change (OauthAccessToken.Token token) with "t1" in Hget.
  by rewrite Hget.
Defined.

(** X22: with the in-memory cache or without a cache, after a successful
    DeleteClient or DeleteAccessToken the lookup of the deleted key,
    when the database answers, returns no record and no error. *)
Theorem postgres_get_after_delete
    (now : Time) (s s' : t MemoryCache.t) (k : string) :
  (DeleteClient s k = (s', None) →
   (gorm.send (db s')).2 = None →
   (GetClient now s' k).1.2 = None ∧ (GetClient now s' k).2 = None)
  ∧ (DeleteAccessToken s k = (s', None) →
     (gorm.send (db s')).2 = None →
     (GetAccessToken now s' k).1.2 = None ∧ (GetAccessToken now s' k).2 = None).
Proof.
  split.
  - intros Hdel Hsend.
    destruct (DeleteClient_success _ _ _ Hdel) as [Hrow Hcache].
    apply postgres_GetClient_absent; [done|done|].
    rewrite Hcache. apply memory_cache_misses_after_delete.
  - intros Hdel Hsend. revert Hdel. unfold DeleteAccessToken, gorm.Delete.
    destruct (gorm.send (db s)) as [db1 [e|]] eqn:Hs; [done|].
    apply send_inv in Hs as [fs ->]. intros [= <-]. cbn in Hsend.
    apply postgres_GetAccessToken_absent; [done|apply lookup_delete_eq|].
    apply memory_cache_misses_after_delete.
Qed.

Lemma postgres_get_after_delete_witness :
  let client := OauthClient.mk "c1" "s1" sql.null 0 in
  let s : t MemoryCache.t :=
    mk (gorm.set_rows gorm.Clients gorm.empty {["c1" := client]})
       (Some (MemoryCache.Set_ 0 MemoryCache.NewMemoryCache "client:c1"
                (VClient client) (5 * time.Minute)).1) in
  (DeleteClient s "c1").2 = None
  ∧ (GetClient time.Second (DeleteClient s "c1").1 "c1").1.2 = None
  ∧ (GetClient time.Second (DeleteClient s "c1").1 "c1").2 = None.
Proof.
  intros client s. split; [reflexivity|].
  destruct (postgres_get_after_delete time.Second s (DeleteClient s "c1").1 "c1")
    as [Hclient _].
  apply Hclient; reflexivity.
Defined.

End postgres_memory_cache.

Section postgres_cleanup.
Context {C : Type} `{CacheProvider C}.
Import PostgreSQLStorage.

(** X23: while the database answers, CleanupExpiredTokens of the
    PostgreSQL backend returns nil and removes from the access-token,
    refresh-token and authorization-code tables exactly the rows whose
    expiry is strictly before the current time; a row that expires at
    the current instant or later stays as it is.  The cache is not
    touched. *)
Theorem postgres_cleanup_removes_exactly_expired (now : Time) (s : t C) :
  gorm.faults (db s) = [] →
  (CleanupExpiredTokens now s).2 = None
  ∧ cache (CleanupExpiredTokens now s).1 = cache s
  ∧ (∀ k, gorm.oauth_access_tokens (db (CleanupExpiredTokens now s).1) !! k
          = match gorm.oauth_access_tokens (db s) !! k with
            | Some a => if decide (OauthAccessToken.ExpiresAt a < now)
                        then None else Some a
            | None => None
            end)
  ∧ (∀ k, gorm.oauth_refresh_tokens (db (CleanupExpiredTokens now s).1) !! k
          = match gorm.oauth_refresh_tokens (db s) !! k with
            | Some r => if decide (OauthRefreshToken.ExpiresAt r < now)
                        then None else Some r
            | None => None
            end)
  ∧ (∀ k, gorm.oauth_authorization_codes (db (CleanupExpiredTokens now s).1) !! k
          = match gorm.oauth_authorization_codes (db s) !! k with
            | Some c => if decide (OauthAuthorizationCode.ExpiresAt c < now)
                        then None else Some c
            | None => None
            end).
Proof.
  intros Hdb.
  destruct (postgres_cleanup_healthy now s Hdb) as (s' & Hrun & Ha & Hr & Hc).
  rewrite Hrun. cbn [fst snd]. split_and!; try done.
  revert Hrun. unfold CleanupExpiredTokens, gorm.DeleteWhere.
  destruct s as [d c], d as [cl us ats rts acs fs]; cbn in *; subst fs.
  cbn. by intros [= <-].
Qed.

(** X24: the three deletes of the cleanup are not one transaction.  When
    the first delete is answered and the second fails, the call returns
    the error "failed to cleanup expired refresh tokens" wrapping the
    driver's error, the expired access tokens are already gone, and the
    refresh tokens and authorization codes are all still there. *)
Theorem postgres_cleanup_stops_at_first_failure
    (now : Time) (s : t C) (e : error) (fs : FaultScript) :
  gorm.faults (db s) = None :: Some e :: fs →
  let s' := (CleanupExpiredTokens now s).1 in
  (CleanupExpiredTokens now s).2
  = Some (Wrapf "failed to cleanup expired refresh tokens" e)
  ∧ (∀ k, gorm.oauth_access_tokens (db s') !! k
          = match gorm.oauth_access_tokens (db s) !! k with
            | Some a => if decide (OauthAccessToken.ExpiresAt a < now)
                        then None else Some a
            | None => None
            end)
  ∧ gorm.oauth_refresh_tokens (db s') = gorm.oauth_refresh_tokens (db s)
  ∧ gorm.oauth_authorization_codes (db s')
    = gorm.oauth_authorization_codes (db s).
Proof.
  intros Hdb s'. subst s'. unfold CleanupExpiredTokens.
  rewrite (DeleteWhere_answered _ _ _ (Some e :: fs)) by done.
  destruct s as [d c], d as [cl us ats rts acs fs0]; cbn in *; subst fs0.
  unfold gorm.DeleteWhere, gorm.send. cbn.
  split_and!; try done.
  intros k. rewrite map_lookup_filter.
  destruct (ats !! k) as [a|]; cbn; [|done].
  case_guard as Hg; cbn in Hg; cbn.
  - pose proof (proj1 (Z.ltb_ge _ _) Hg). by rewrite decide_False by lia.
  - rewrite decide_True; [done|]. apply Z.ltb_lt.
    by destruct (_ <? now).
Qed.

End postgres_cleanup.

Lemma postgres_cleanup_removes_exactly_expired_witness :
  let old :=
    OauthAccessToken.mk "t1" (sql.some "c1") sql.null None None "read" 10 0 in
  let fresh :=
    OauthAccessToken.mk "t2" (sql.some "c1") sql.null None None "read" 100 0 in
  let s : PostgreSQLStorage.t MemoryCache.t :=
    PostgreSQLStorage.mk
      (gorm.set_rows gorm.AccessTokens gorm.empty
         (<["t1" := old]> {["t2" := fresh]})) None in
  let s' := (PostgreSQLStorage.CleanupExpiredTokens 100 s).1 in
  gorm.faults (PostgreSQLStorage.db s) = []
  ∧ gorm.oauth_access_tokens (PostgreSQLStorage.db s') !! "t1" = None
  ∧ gorm.oauth_access_tokens (PostgreSQLStorage.db s') !! "t2" = Some fresh.
Proof.
  intros old fresh s s'.
  assert (gorm.faults (PostgreSQLStorage.db s) = []) as Hdb by reflexivity.
  split; [exact Hdb|].
  destruct (postgres_cleanup_removes_exactly_expired 100 s Hdb)
    as (_ & _ & Ha & _).
  subst s'. split; rewrite Ha; by vm_compute.
Defined.

Lemma postgres_cleanup_stops_at_first_failure_witness :
  let old :=
    OauthAccessToken.mk "t1" (sql.some "c1") sql.null None None "read" 10 0 in
  let oldr := OauthRefreshToken.mk "r1" (sql.some "c1") sql.null "read" 10 0 in
  let s : PostgreSQLStorage.t MemoryCache.t :=
    PostgreSQLStorage.mk
      (gorm.set_faults
         (gorm.set_rows gorm.RefreshTokens
            (gorm.set_rows gorm.AccessTokens gorm.empty {["t1" := old]})
            {["r1" := oldr]})
         [None; Some (DriverError "connection reset by peer")]) None in
  let s' := (PostgreSQLStorage.CleanupExpiredTokens 100 s).1 in
  (PostgreSQLStorage.CleanupExpiredTokens 100 s).2
  = Some (Wrapf "failed to cleanup expired refresh tokens"
            (DriverError "connection reset by peer"))
  ∧ gorm.oauth_access_tokens (PostgreSQLStorage.db s') !! "t1" = None
  ∧ gorm.oauth_refresh_tokens (PostgreSQLStorage.db s') !! "r1" = Some oldr.
Proof.
  intros old oldr s s'.
  destruct (postgres_cleanup_stops_at_first_failure 100 s
              (DriverError "connection reset by peer") [] eq_refl)
    as (Herr & Ha & Hr & _).
  subst s'. split; [exact Herr|]. split.
  - rewrite Ha. by vm_compute.
  - rewrite Hr. by vm_compute.
Defined.

(** ** Token validation: what a call changes and how it fails *)

Section authenticate_effects.
Import oauth.

Lemma Authenticate_tables (now : Time) (s : Service) (token : string) :
  let s' := (Authenticate now s token).1.1 in
  cnf s' = cnf s
  ∧ gorm.oauth_clients (db s') = gorm.oauth_clients (db s)
  ∧ gorm.oauth_users (db s') = gorm.oauth_users (db s)
  ∧ gorm.oauth_access_tokens (db s') = gorm.oauth_access_tokens (db s)
  ∧ gorm.oauth_authorization_codes (db s')
    = gorm.oauth_authorization_codes (db s)
  ∧ (gorm.oauth_refresh_tokens (db s') = gorm.oauth_refresh_tokens (db s)
     ∨ (Authenticate now s token).2 = None
       ∧ ∃ a, (Authenticate now s token).1.2 = Some a
           ∧ gorm.oauth_refresh_tokens (db s')
             = (fun r =>
                  if refresh_tokens_query a r
                  then OauthRefreshToken.with_ExpiresAt r
                         (time.Add now
                            (time.Seconds (RefreshTokenLifetime (cnf s))))
                  else r) <$> gorm.oauth_refresh_tokens (db s)).
Proof.
  unfold Authenticate, gorm.First, gorm.UpdateColumn, gorm.send.
  destruct s as [c d], d as [cl us ats rts acs fs]; cbn.
  destruct (next_fault fs) as [[e|] fs1]; cbn.
  - destruct (gorm.IsRecordNotFoundError e); [by split_and!; try left|].
    destruct (time.After now _); [by split_and!; try left|].
    destruct (next_fault fs1) as [[e2|] fs2]; cbn;
      [by split_and!; try left|].
    split_and!; try done. right. split; [done|]. by eexists.
  - destruct (ats !! token) as [a0|]; cbn; [|by split_and!; try left].
    destruct (time.After now _); [by split_and!; try left|].
    destruct (next_fault fs1) as [[e2|] fs2]; cbn;
      [by split_and!; try left|].
    split_and!; try done. right. split; [done|]. by eexists.
Qed.

(** X25: whatever its outcome, Authenticate leaves the configuration and
    the client, user, access-token and authorization-code tables as they
    were; it adds and removes no refresh token and changes nothing of a
    refresh token but its expiry; and a call that returns an error has
    changed no row at all. *)
Theorem authenticate_changes_only_refresh_expiry
    (now : Time) (s : Service) (token : string) :
  let s' := (Authenticate now s token).1.1 in
  cnf s' = cnf s
  ∧ gorm.oauth_clients (db s') = gorm.oauth_clients (db s)
  ∧ gorm.oauth_users (db s') = gorm.oauth_users (db s)
  ∧ gorm.oauth_access_tokens (db s') = gorm.oauth_access_tokens (db s)
  ∧ gorm.oauth_authorization_codes (db s')
    = gorm.oauth_authorization_codes (db s)
  ∧ dom (gorm.oauth_refresh_tokens (db s')) = dom (gorm.oauth_refresh_tokens (db s))
  ∧ (∀ k r r',
       gorm.oauth_refresh_tokens (db s) !! k = Some r →
       gorm.oauth_refresh_tokens (db s') !! k = Some r' →
       r' = OauthRefreshToken.with_ExpiresAt r (OauthRefreshToken.ExpiresAt r'))
  ∧ (is_Some (Authenticate now s token).2 →
     gorm.oauth_refresh_tokens (db s') = gorm.oauth_refresh_tokens (db s)).
Proof.
  intros s'.
  destruct (Authenticate_tables now s token)
    as (Hc & Hcl & Hus & Hat & Hac & Hrt).
  fold s' in Hc, Hcl, Hus, Hat, Hac, Hrt.
  split_and!; try done.
  - destruct Hrt as [-> | (_ & a & _ & ->)]; [done|]. apply dom_fmap_L.
  - intros k r r' Hr. destruct Hrt as [-> | (_ & a & _ & ->)].
    + rewrite Hr. intros [= <-]. by destruct r.
    + rewrite lookup_fmap, Hr. cbn. intros [= <-].
      destruct (refresh_tokens_query a r); by destruct r.
  - intros [e He]. destruct Hrt as [-> | (Hnone & _)]; [done|congruence].
Qed.

(** X26: a failure of the lookup itself is not told apart from a found
    record: the zero access token is examined, so that, at any current
    time after the zero instant, a database that fails the first query
    makes Authenticate answer ErrAccessTokenExpired, whether the token
    exists or not, and not the driver's error. *)
Theorem authenticate_reports_lookup_failure_as_expired
    (now : Time) (s : Service) (token : string) (e : error) (fs : FaultScript) :
  gorm.faults (db s) = Some e :: fs →
  e ≠ ErrRecordNotFound →
  time.zero < now →
  (Authenticate now s token).1.2 = None
  ∧ (Authenticate now s token).2 = Some ErrAccessTokenExpired.
Proof. apply Authenticate_lookup_failure. Qed.

Lemma authenticate_reports_lookup_failure_as_expired_witness :
  let s :=
    mk (mkOauthConfig 3600 1209600 3600)
       (gorm.set_faults gorm.empty [Some (DriverError "connection refused")]) in
  gorm.faults (db s) = [Some (DriverError "connection refused")]
  ∧ time.zero < 1000
  ∧ (Authenticate 1000 s "t1").2 = Some ErrAccessTokenExpired.
Proof.
  intros s.
  assert (time.zero < 1000) as Hnow by (by vm_compute).
  split; [reflexivity|]. split; [exact Hnow|].
  apply (authenticate_reports_lookup_failure_as_expired 1000 s "t1"
           (DriverError "connection refused") []);
    first [reflexivity | discriminate | exact Hnow].
Defined.

(** X27: when the token is found and not expired but the update of the
    refresh tokens fails, Authenticate returns no token and the driver's
    error as it is, unwrapped, and no refresh token was changed. *)
Theorem authenticate_returns_update_failure
    (now : Time) (s : Service) (token : string) (a : OauthAccessToken.t)
    (e : error) (fs : FaultScript) :
  gorm.faults (db s) = None :: Some e :: fs →
  gorm.oauth_access_tokens (db s) !! token = Some a →
  now ≤ OauthAccessToken.ExpiresAt a →
  (Authenticate now s token).1.2 = None
  ∧ (Authenticate now s token).2 = Some e
  ∧ gorm.oauth_refresh_tokens (db (Authenticate now s token).1.1)
    = gorm.oauth_refresh_tokens (db s).
Proof.
  intros Hdb Hrow Hnow.
  unfold Authenticate, gorm.First, gorm.UpdateColumn, gorm.send.
  destruct s as [c d], d as [cl us ats rts acs fs0]; cbn in *; subst fs0.
  cbn. rewrite Hrow. cbn.
  by rewrite (proj2 (After_false _ _) Hnow).
Qed.

Lemma authenticate_returns_update_failure_witness :
  let tok :=
    OauthAccessToken.mk "t1" (sql.some "c1") sql.null None None "read" 1000 0 in
  let s :=
    mk (mkOauthConfig 3600 1209600 3600)
       (gorm.set_faults
          (gorm.set_rows gorm.AccessTokens gorm.empty {["t1" := tok]})
          [None; Some (DriverError "deadlock detected")]) in
  (Authenticate 500 s "t1").1.2 = None
  ∧ (Authenticate 500 s "t1").2 = Some (DriverError "deadlock detected").
Proof.
  intros tok s.
  assert (500 ≤ OauthAccessToken.ExpiresAt tok) as Hnow by (by vm_compute).
  destruct (authenticate_returns_update_failure 500 s "t1" tok
              (DriverError "deadlock detected") [] eq_refl eq_refl Hnow)
    as (Hv & He & _).
  split; [exact Hv|exact He].
Defined.

(** X28: validating again at the same instant changes nothing more:
    while the database answers, a successful Authenticate followed by
    Authenticate of the same token at the same time returns the same
    token and leaves the database exactly as the first call left it. *)
Theorem authenticate_twice_same_instant
    (now : Time) (s s1 : Service) (token : string) (a : OauthAccessToken.t) :
  gorm.faults (db s) = [] →
  Authenticate now s token = (s1, Some a, None) →
  Authenticate now s1 token = (s1, Some a, None).
Proof.
  intros Hdb. rewrite Authenticate_healthy by done.
  destruct s as [c d], d as [cl us ats rts acs fs]; cbn in *; subst fs.
  destruct (ats !! token) as [a0|] eqn:Hrow; [|done].
  destruct (time.After now (OauthAccessToken.ExpiresAt a0)) eqn:Hafter; [done|].
  intros [= <- <-]. rewrite Authenticate_healthy by done. cbn.
  rewrite Hrow, Hafter.
  set (extend := fun r : OauthRefreshToken.t =>
         if refresh_tokens_query a0 r
         then OauthRefreshToken.with_ExpiresAt r
                (time.Add now (time.Seconds (RefreshTokenLifetime c)))
         else r).
  assert (extend <$> (extend <$> rts) = extend <$> rts) as Hsame.
  { rewrite <- map_fmap_compose. apply map_fmap_ext. intros k r _. cbn.
    unfold extend at 2. destruct (refresh_tokens_query a0 r) eqn:Hq.
    - unfold extend.
      assert (refresh_tokens_query a0
                (OauthRefreshToken.with_ExpiresAt r
                   (time.Add now (time.Seconds (RefreshTokenLifetime c))))
              = true) as -> by (by destruct r).
      rewrite Hq. by destruct r.
    - unfold extend. by rewrite Hq. }
  by rewrite Hsame.
Qed.

Lemma authenticate_twice_same_instant_witness :
  let tok :=
    OauthAccessToken.mk "t1" (sql.some "c1") sql.null None None "read"
      (3600 * time.Second) 0 in
  let rt :=
    OauthRefreshToken.mk "r1" (sql.some "c1") sql.null "read"
      (1800 * time.Second) 0 in
  let s :=
    mk (mkOauthConfig 3600 1209600 3600)
       (gorm.set_rows gorm.RefreshTokens
          (gorm.set_rows gorm.AccessTokens gorm.empty {["t1" := tok]})
          {["r1" := rt]}) in
  let s1 := (Authenticate (1000 * time.Second) s "t1").1.1 in
  gorm.faults (db s) = []
  ∧ Authenticate (1000 * time.Second) s "t1" = (s1, Some tok, None)
  ∧ Authenticate (1000 * time.Second) s1 "t1" = (s1, Some tok, None).
Proof.
  intros tok rt s s1.
  assert (gorm.faults (db s) = []) as Hdb by reflexivity.
  assert (Authenticate (1000 * time.Second) s "t1" = (s1, Some tok, None))
    as Hrun by (by vm_compute).
  split; [exact Hdb|]. split; [exact Hrun|].
  exact (authenticate_twice_same_instant _ s s1 "t1" tok Hdb Hrun).
Defined.

End authenticate_effects.

(** ** The Redis cache *)

Section redis_cache.
Import RedisCache.

Lemma getFullKey_inj (r1 r2 : t) (k1 k2 : string) :
  prefix r1 = prefix r2 →
  getFullKey r1 k1 = getFullKey r2 k2 → k1 = k2.
Proof.
  unfold getFullKey. intros ->. case_decide; [done|].
  intros Heq. apply (inj (String.append (prefix r2))) in Heq.
  by apply (inj (String.append ":")) in Heq.
Qed.

(** X29: while the Redis client answers, a value put with Set under a
    positive TTL is what Get of the same key copies into a destination
    of the same entity, with a nil error, at any time before the TTL has
    run out (JSON decoding giving back what was encoded); and the Set
    does not change what Get answers for any other key, the prefixed
    keys of two different keys being different. *)
Theorem redis_cache_set_then_get
    (setAt now : Time) (r : t) (key other : string) (v dest : CacheValue)
    (ttl : Duration) :
  redis.faults (client r) = [] →
  0 < ttl →
  now < setAt + ttl →
  match v, dest with
  | VClient _, VClient _ | VUser _, VUser _
  | VAccessToken _, VAccessToken _ => True
  | _, _ => False
  end →
  (Set_ setAt r key v ttl).2 = None
  ∧ (Get now (Set_ setAt r key v ttl).1 key dest).1.2 = v
  ∧ (Get now (Set_ setAt r key v ttl).1 key dest).2 = None
  ∧ (other ≠ key →
     (Get now (Set_ setAt r key v ttl).1 other dest).1.2
     = (Get now r other dest).1.2
     ∧ (Get now (Set_ setAt r key v ttl).1 other dest).2
       = (Get now r other dest).2).
Proof.
  intros Hf Httl Hnow Hkind.
  destruct r as [[st fs] pre]. cbn in Hf. subst fs.
  assert (∀ st' k, getFullKey (mk (redis.mk st' []) pre) k
                   = getFullKey (mk (redis.mk st []) pre) k) as Hkey by done.
  unfold Set_, Get, redis.Set_, redis.Get. cbn [json.Marshal].
  cbn -[getFullKey]. rewrite (proj2 (Z.ltb_lt 0 ttl)) by done.
  cbn -[getFullKey]. rewrite !Hkey.
  split_and!; [done| | |].
  - rewrite lookup_insert_eq. cbn -[getFullKey]. unfold time.Add.
    rewrite (proj2 (Z.ltb_lt _ _)) by done. cbn -[getFullKey].
    destruct v, dest; first [contradiction | done].
  - rewrite lookup_insert_eq. cbn -[getFullKey]. unfold time.Add.
    rewrite (proj2 (Z.ltb_lt _ _)) by done. cbn -[getFullKey].
    destruct v, dest; first [contradiction | done].
  - intros Hother.
    rewrite lookup_insert_ne.
    + destruct (st !! _) as [en|]; [destruct (redis.live now en)|]; try done.
      by destruct (json.Unmarshal (redis.payload en) dest).
    + intros Heq. apply Hother. symmetry.
      by apply getFullKey_inj in Heq.
Qed.

Lemma redis_cache_set_then_get_witness :
  let client := OauthClient.mk "c1" "s1" sql.null 0 in
  let r := mk (redis.mk ∅ []) "oauth" in
  (Get time.Second (Set_ 0 r "client:c1" (VClient client) time.Minute).1
     "client:c1" (VClient OauthClient.zero)).1.2 = VClient client.
Proof.
  intros client r.
  assert (0 < time.Minute) as H1 by (by vm_compute).
  assert (time.Second < 0 + time.Minute) as H2 by (by vm_compute).
  destruct (redis_cache_set_then_get 0 time.Second r "client:c1" "client:c2"
              (VClient client) (VClient OauthClient.zero) time.Minute
              eq_refl H1 H2 I) as (_ & Hget & _).
  exact Hget.
Defined.

(** X30: how the Redis cache reports failures.  A key the server does
    not hold gives the plain error "cache miss" and leaves the
    destination as it was; a command the client fails gives the driver's
    error wrapped as "failed to get cache value", "failed to set cache
    value" or "failed to delete cache value", and then nothing was
    stored or removed; deleting a key that is not there succeeds. *)
Theorem redis_cache_error_reports
    (now : Time) (r : t) (key : string) (v dest : CacheValue) (ttl : Duration)
    (e : error) (fs : FaultScript) :
  (redis.faults (client r) = [] →
   redis.store (client r) !! getFullKey r key = None →
   Get now r key dest = (r, dest, Some (Errorf "cache miss"))
   ∧ (Delete r key).2 = None)
  ∧ (redis.faults (client r) = Some e :: fs →
     e ≠ RedisNil →
     (Get now r key dest).1.2 = dest
     ∧ (Get now r key dest).2 = Some (Wrapf "failed to get cache value" e)
     ∧ (Set_ now r key v ttl).2 = Some (Wrapf "failed to set cache value" e)
     ∧ redis.store (client (Set_ now r key v ttl).1) = redis.store (client r)
     ∧ (Delete r key).2 = Some (Wrapf "failed to delete cache value" e)
     ∧ redis.store (client (Delete r key).1) = redis.store (client r)).
Proof.
  unfold Set_, Get, Delete, redis.Set_, redis.Get, redis.Del.
  cbn [json.Marshal].
  destruct r as [[st fs0] pre]. cbn. split.
  - intros -> Hnone. cbn. by rewrite Hnone.
  - intros -> Hne. cbn. by rewrite decide_False.
Qed.

Lemma redis_cache_error_reports_witness :
  let r := mk (redis.mk ∅ [Some (DriverError "connection refused")]) "" in
  (Get 0 r "client:c1" (VClient OauthClient.zero)).2
  = Some (Wrapf "failed to get cache value" (DriverError "connection refused"))
  ∧ Get 0 (mk (redis.mk ∅ []) "") "client:c1" (VClient OauthClient.zero)
    = (mk (redis.mk ∅ []) "", VClient OauthClient.zero,
       Some (Errorf "cache miss")).
Proof.
  intros r.
  destruct (redis_cache_error_reports 0 r "client:c1"
              (VClient OauthClient.zero) (VClient OauthClient.zero) 0
              (DriverError "connection refused") []) as [_ Hfail].
  destruct (Hfail eq_refl) as (_ & Hget & _); [discriminate|].
  split; [exact Hget|].
  destruct (redis_cache_error_reports 0 (mk (redis.mk ∅ []) "") "client:c1"
              (VClient OauthClient.zero) (VClient OauthClient.zero) 0
              RedisNil []) as [Hmiss _].
  by destruct (Hmiss eq_refl eq_refl) as [Hg _].
Defined.

End redis_cache.
